(** * pangeo_forge_recipes.openers: a shallow embedding and its properties

    The module [openers.py] offers four functions: [open_url], [_set_engine],
    [open_with_kerchunk] and [open_with_xarray].  They are embedded here as
    computations in a small error-and-state monad whose state holds

    - a store of mutable [dict] objects (Python passes dicts by reference),
    - the list of messages given to [warnings.warn],
    - the log of calls made to external collaborators (cache, fsspec,
      kerchunk scanners, tempfile, xarray), in the order they were made.

    Python values are modelled by the type [pyval]; a [dict] keeps its
    insertion order, as in CPython, and is an association list.

    The collaborators are not part of the module.  Each is a function from the
    calls made so far and its arguments to an answer or an exception, so the
    properties hold whatever the collaborators do.  The [import] statements
    inside [open_with_kerchunk] are taken to succeed.  The options dict of
    [_set_engine] lives in the store, since the function copies and updates
    it; the mappings that a scanner returns are owned by the call that
    receives them and are handled as values. *)

From Stdlib Require Import ZArith String List.
From stdpp Require Import base option list gmap strings fin_maps pretty.

Set Warnings "-register-all".

Local Open Scope string_scope.
Local Open Scope list_scope.

(** ** Values *)

(** Modelled from the spec: [FileType] is declared in [patterns.py], which is
    not among the sources; it is the closed set of six members named below.
    It is a plain [Enum]: a member's [value] is its own name, [str] of a member
    is [FileType.<name>], and every member is truthy. *)
Inductive FileType : Set :=
| unknown | netcdf3 | netcdf4 | grib | opendap | zarr.

#[global] Instance FileType_eq_dec : EqDecision FileType.
Proof. solve_decision. Defined.

Definition FileType_value (ft : FileType) : string :=
  match ft with
  | unknown => "unknown" | netcdf3 => "netcdf3" | netcdf4 => "netcdf4"
  | grib => "grib" | opendap => "opendap" | zarr => "zarr"
  end.

Definition FileType_str (ft : FileType) : string :=
  "FileType." +:+ FileType_value ft.

Definition FileType_truthy (ft : FileType) : bool := true.

(** [a or b] on enum members: the first operand when it is truthy. *)
Definition FileType_or (a b : FileType) : FileType :=
  if FileType_truthy a then a else b.

(** [x in l] for a list of enum members. *)
Definition FileType_in (x : FileType) (l : list FileType) : bool :=
  existsb (fun y => bool_decide (x = y)) l.

(** Handles.  An object is modelled by what the code observes of it: its
    printed form, and its [path] attribute when it has one. *)
Record fsstore := FSStore { fs_repr : string; fs_path : string }.
Record fileobj := FileObj { fo_repr : string; fo_path : option string }.
Record openfile := OpenFile { of_path : string }.

Inductive pyval :=
| VNone
| VBool (b : bool)
| VInt (z : Z)
| VStr (s : string)
| VList (l : list pyval)
| VDict (kvs : list (string * pyval))
| VFSStore (s : fsstore)        (* zarr.storage.FSStore *)
| VIOBase (f : fileobj)         (* an io.IOBase instance *)
| VOpenFile (o : openfile).     (* fsspec.core.OpenFile: has .open() *)

(** A dict with string keys, in insertion order. *)
Abbreviation pydict := (list (string * pyval)).

(** ** Dict operations *)

Fixpoint dict_get (d : pydict) (k : string) : option pyval :=
  match d with
  | [] => None
  | (k', v) :: d' => if decide (k' = k) then Some v else dict_get d' k
  end.

Definition dict_contains (d : pydict) (k : string) : bool :=
  match dict_get d k with
  | Some _ => true
  | None => false
  end.

(** [d[k] = v]: an existing key keeps its position, a new key goes last. *)
Fixpoint dict_set (d : pydict) (k : string) (v : pyval) : pydict :=
  match d with
  | [] => [(k, v)]
  | (k', v') :: d' =>
      if decide (k' = k) then (k', v) :: d' else (k', v') :: dict_set d' k v
  end.

(** [d.update(o)]: the entries of [o] are assigned one after the other. *)
Definition dict_update (d o : pydict) : pydict :=
  fold_left (fun acc kv => dict_set acc kv.1 kv.2) o d.

Definition dict_keys (d : pydict) : list string := d.*1.

(** ** Printing *)

(** [repr] of a str, for strings without quotes, backslashes or control
    characters (the engine names and option keys used here). *)
Definition str_repr (s : string) : string := "'" +:+ s +:+ "'".

Fixpoint py_repr (v : pyval) : string :=
  match v with
  | VNone => "None"
  | VBool true => "True"
  | VBool false => "False"
  | VInt z => pretty z
  | VStr s => str_repr s
  | VList l =>
      "[" +:+
      (fix items (l : list pyval) : string :=
         match l with
         | [] => EmptyString
         | [x] => py_repr x
         | x :: l' => py_repr x +:+ ", " +:+ items l'
         end) l +:+ "]"
  | VDict kvs =>
      "{" +:+
      (fix items (l : list (string * pyval)) : string :=
         match l with
         | [] => EmptyString
         | [(k, x)] => str_repr k +:+ ": " +:+ py_repr x
         | (k, x) :: l' => str_repr k +:+ ": " +:+ py_repr x +:+ ", " +:+ items l'
         end) kvs +:+ "}"
  | VFSStore s => fs_repr s
  | VIOBase f => fo_repr f
  | VOpenFile o => "<OpenFile '" +:+ of_path o +:+ "'>"
  end.

(** [str(v)], which an f-string placeholder [{v}] uses. *)
Definition py_str (v : pyval) : string :=
  match v with
  | VStr s => s
  | _ => py_repr v
  end.

(** [v == s] and [v != s] for a str [s]: only a str compares equal to a str. *)
Definition py_eq_str (v : pyval) (s : pyval) : bool :=
  match v, s with
  | VStr a, VStr b => bool_decide (a = b)
  | _, _ => false
  end.

Definition py_ne_str (v : pyval) (s : pyval) : bool := negb (py_eq_str v s).

(** ** Exceptions and results *)

Inductive exn :=
| ValueError (msg : string)
| KeyError (key : string)
| TypeError (msg : string)
| AttributeError (msg : string)
| IndexError (msg : string)
| UnboundLocalError (var : string)
| ExternalError (msg : string).    (* raised inside a collaborator *)

Inductive result (A : Type) :=
| Ok (a : A)
| Err (e : exn).
Arguments Ok {A} a.
Arguments Err {A} e.

Definition is_Ok {A} (r : result A) : bool :=
  match r with Ok _ => true | Err _ => false end.

(** ** Calls to collaborators *)

Abbreviation loc := positive.

Inductive call :=
| Call_cache_file (cache : string) (url : string) (secrets : pyval) (kw : pydict)
| Call_open_file (cache : string) (url : string) (mode : string)
| Call_get_opener (url : string) (secrets : pyval) (kw : pydict)
| Call_handle_open (o : openfile)
| Call_SingleHdf5ToZarr (src path inline_threshold storage_options : pyval)
| Call_NetCDF3ToZarr (url inline_threshold max_chunk_size storage_options : pyval)
| Call_scan_grib (url inline_threshold filter storage_options : pyval)
| Call_NamedTemporaryFile
| Call_open_local (name mode : string)
| Call_copy_btw_filesystems (src : pyval) (dst : string)
| Call_xr_open_dataset (src : pyval) (kw : pydict)
| Call_ds_load (ds : string).

Definition is_scanner_call (c : call) : bool :=
  match c with
  | Call_SingleHdf5ToZarr _ _ _ _ | Call_NetCDF3ToZarr _ _ _ _
  | Call_scan_grib _ _ _ _ => true
  | _ => false
  end.

(** What the collaborators answer.  Each answer may depend on the calls made so
    far; an answer of [Err e] is the collaborator raising [e]. *)
Record collaborators := Collaborators {
  cache_file : list call -> string -> string -> pyval -> pydict -> result unit;
  open_file : list call -> string -> string -> string -> result pyval;
  _get_opener : list call -> string -> pyval -> pydict -> result pyval;
  handle_open : list call -> openfile -> result fileobj;
  SingleHdf5ToZarr_translate :
    list call -> pyval -> pyval -> pyval -> pyval -> result pydict;
  NetCDF3ToZarr_translate :
    list call -> pyval -> pyval -> pyval -> pyval -> result pydict;
  scan_grib : list call -> pyval -> pyval -> pyval -> pyval -> result (list pydict);
  NamedTemporaryFile : list call -> result string;
  open_local : list call -> string -> string -> result string;
  _copy_btw_filesystems : list call -> pyval -> string -> result unit;
  xr_open_dataset : list call -> pyval -> pydict -> result string;
  ds_load : list call -> string -> result unit
}.

(** ** The monad *)

Record world := World {
  heap : gmap loc pydict;
  warnings : list string;
  calls : list call
}.

Definition M (A : Type) : Type := world -> result A * world.

#[global] Instance M_ret : MRet M := fun A a w => (Ok a, w).
#[global] Instance M_bind : MBind M := fun A B f m w =>
  match m w with
  | (Ok a, w') => f a w'
  | (Err e, w') => (Err e, w')
  end.

Definition raise {A} (e : exn) : M A := fun w => (Err e, w).

Definition lift {A} (r : result A) : M A := fun w => (r, w).

(** [warnings.warn(msg)] *)
Definition warn (msg : string) : M unit := fun w =>
  (Ok tt, World (heap w) (warnings w ++ [msg]) (calls w)).

(** A call [c] to a collaborator answering [r]. *)
Definition invoke {A} (c : call) (r : list call -> result A) : M A := fun w =>
  (r (calls w), World (heap w) (warnings w) (calls w ++ [c])).

(** A new dict object. *)
Definition alloc (d : pydict) : M loc := fun w =>
  let l := fresh (dom (heap w)) in
  (Ok l, World (<[l := d]> (heap w)) (warnings w) (calls w)).

Definition deref (l : loc) : M pydict := fun w =>
  match heap w !! l with
  | Some d => (Ok d, w)
  | None => (Err (TypeError "not a dict"), w)
  end.

Definition assign (l : loc) (d : pydict) : M unit := fun w =>
  (Ok tt, World (<[l := d]> (heap w)) (warnings w) (calls w)).

(** [d.copy()], [k in d], [d[k]] and [d.update(o)] on a dict object. *)
Definition obj_copy (l : loc) : M loc := d ← deref l; alloc d.

Definition obj_contains (l : loc) (k : string) : M bool :=
  d ← deref l; mret (dict_contains d k).

Definition obj_getitem (l : loc) (k : string) : M pyval :=
  d ← deref l;
  match dict_get d k with
  | Some v => mret v
  | None => raise (KeyError (str_repr k))
  end.

Definition obj_update (l : loc) (o : pydict) : M unit :=
  d ← deref l; assign l (dict_update d o).

(** ** Dynamic operations on values *)

(** [v[0]].  A dict has string keys here, so the key [0] is never found; the
    handles are taken to have no [__getitem__]. *)
Definition subscript0 (v : pyval) : result pyval :=
  match v with
  | VList (x :: _) => Ok x
  | VList [] => Err (IndexError "list index out of range")
  | VStr (String c _) => Ok (VStr (String c EmptyString))
  | VStr EmptyString => Err (IndexError "string index out of range")
  | VDict _ => Err (KeyError "0")
  | VNone => Err (TypeError "'NoneType' object is not subscriptable")
  | VBool _ => Err (TypeError "'bool' object is not subscriptable")
  | VInt _ => Err (TypeError "'int' object is not subscriptable")
  | _ => Err (TypeError "object is not subscriptable")
  end.

Definition getitem0 (v : pyval) : M pyval := lift (subscript0 v).

(** [v.path] *)
Definition getattr_path (v : pyval) : M pyval :=
  match v with
  | VFSStore s => mret (VStr (fs_path s))
  | VOpenFile o => mret (VStr (of_path o))
  | VIOBase f =>
      match fo_path f with
      | Some p => mret (VStr p)
      | None => raise (AttributeError "object has no attribute 'path'")
      end
  | VStr _ => raise (AttributeError "'str' object has no attribute 'path'")
  | _ => raise (AttributeError "object has no attribute 'path'")
  end.

(** [d[k]] on a dict value. *)
Definition dict_getitem (d : pydict) (k : string) : M pyval :=
  match dict_get d k with
  | Some v => mret v
  | None => raise (KeyError (str_repr k))
  end.

(** [l[0]] on a list of dicts. *)
Definition list_getitem0 (l : list pydict) : M pydict :=
  match l with
  | x :: _ => mret x
  | [] => raise (IndexError "list index out of range")
  end.

(** [v.copy()]: dicts and lists have the method. *)
Definition py_copy (v : pyval) : M pyval :=
  match v with
  | VDict _ | VList _ => mret v
  | _ => raise (AttributeError "object has no attribute 'copy'")
  end.

(** [v.update]: only a dict has the method. *)
Definition getattr_update (v : pyval) : M unit :=
  match v with
  | VDict _ => mret tt
  | _ => raise (AttributeError "object has no attribute 'update'")
  end.

(** One element of the sequence given to [dict.update]: it is iterated and
    must yield two items, the key and the value.  A list yields its items, a
    str its characters, a dict its keys.  A dict has str keys here, so a pair
    whose key is hashable but not a str is outside the model and refused. *)
Definition update_length_error (i n : nat) : exn :=
  ValueError ("dictionary update sequence element #" +:+ pretty i +:+
              " has length " +:+ pretty n +:+ "; 2 is required").

Definition update_item (i : nat) (x : pyval) : result (string * pyval) :=
  let wrong_length (n : nat) := Err (update_length_error i n) in
  match x with
  | VList [VStr k; v] => Ok (k, v)
  | VList [VList _; _] => Err (TypeError "unhashable type: 'list'")
  | VList [VDict _; _] => Err (TypeError "unhashable type: 'dict'")
  | VList [_; _] => Err (TypeError "key is not a str")
  | VList l => wrong_length (length l)
  | VStr (String a (String b EmptyString)) =>
      Ok (String a EmptyString, VStr (String b EmptyString))
  | VStr s => wrong_length (String.length s)
  | VDict [(k1, _); (k2, _)] => Ok (k1, VStr k2)
  | VDict kvs => wrong_length (length kvs)
  | _ => Err (TypeError ("cannot convert dictionary update sequence element #"
                         +:+ pretty i +:+ " to a sequence"))
  end.

Fixpoint update_items (i : nat) (l : list pyval) : result (list (string * pyval)) :=
  match l with
  | [] => Ok []
  | x :: l' =>
      match update_item i x with
      | Ok kv =>
          match update_items (S i) l' with
          | Ok kvs => Ok (kv :: kvs)
          | Err e => Err e
          end
      | Err e => Err e
      end
  end.

(** The entries that [dict.update(o)] assigns, in order: those of a dict, or
    the pairs of a sequence (the first character of a non-empty str is an
    element of length 1).  The handles are taken not to be iterable. *)
Definition update_entries (o : pyval) : result (list (string * pyval)) :=
  match o with
  | VDict o' => Ok o'
  | VList l => update_items 0 l
  | VStr EmptyString => Ok []
  | VStr (String _ _) => Err (update_length_error 0 1)
  | VNone => Err (TypeError "'NoneType' object is not iterable")
  | VBool _ => Err (TypeError "'bool' object is not iterable")
  | VInt _ => Err (TypeError "'int' object is not iterable")
  | _ => Err (TypeError "object is not iterable")
  end.

(** [v.update(o)] *)
Definition py_update (v o : pyval) : M pyval :=
  match v with
  | VDict d =>
      match update_entries o with
      | Ok entries => mret (VDict (dict_update d entries))
      | Err e => raise e
      end
  | _ => raise (AttributeError "object has no attribute 'update'")
  end.

Fixpoint foldM {A B} (f : A -> B -> M A) (l : list B) (a : A) : M A :=
  match l with
  | [] => mret a
  | b :: l' => a' ← f a b; foldM f l' a'
  end.

(** ** The module *)

Section Openers.

Variable env : collaborators.

(** [x or {}] on an optional dict value. *)
Definition or_empty (x : option pydict) : pydict :=
  match x with
  | Some (kv :: d) => kv :: d
  | _ => []
  end.

Definition open_url (url : string) (cache : option string) (secrets : pyval)
    (open_kwargs : option pydict) : M pyval :=
  let kw := or_empty open_kwargs in
  match cache with
  | Some c =>
      invoke (Call_cache_file c url secrets kw)
             (fun h => cache_file env h c url secrets kw);;
      invoke (Call_open_file c url "rb") (fun h => open_file env h c url "rb")
  | None =>
      invoke (Call_get_opener url secrets kw)
             (fun h => _get_opener env h url secrets kw)
  end.

Definition OPENER_MAP : list (FileType * pydict) :=
  [ (netcdf3, [("engine", VStr "scipy")]);
    (netcdf4, [("engine", VStr "h5netcdf")]);
    (zarr, [("engine", VStr "zarr")]) ].

Definition FileType_repr (ft : FileType) : string :=
  "<" +:+ FileType_str ft +:+ ": " +:+ str_repr (FileType_value ft) +:+ ">".

Fixpoint OPENER_MAP_get (m : list (FileType * pydict)) (ft : FileType)
    : option pydict :=
  match m with
  | [] => None
  | (k, d) :: m' => if decide (k = ft) then Some d else OPENER_MAP_get m' ft
  end.

(** [OPENER_MAP[file_type]] *)
Definition OPENER_MAP_getitem (ft : FileType) : M pydict :=
  match OPENER_MAP_get OPENER_MAP ft with
  | Some d => mret d
  | None => raise (KeyError (FileType_repr ft))
  end.

(** [OPENER_MAP[file_type]["engine"]], the engine designated for a file type,
    when the table has one. *)
Definition canonical_engine (ft : FileType) : option pyval :=
  c ← OPENER_MAP_get OPENER_MAP ft; dict_get c "engine".

Definition unknown_engine_msg : string :=
  "Unknown file type specified without xarray engine, " +:+
  "backend engine will be automatically selected by xarray".

Definition engine_message_base (file_type : FileType) (canonical : pydict) : string :=
  "pangeo-forge-recipes will automatically set the xarray backend for " +:+
  "files of type '" +:+ FileType_value file_type +:+ "' to '" +:+
  py_repr (VDict canonical) +:+ "', ".

Definition engine_message_tail (file_type : FileType) : string :=
  "If this input file is not of type '" +:+ FileType_value file_type +:+
  "', please update" +:+
  " this recipe by passing a different value to `FilePattern.file_type`.".

Definition warn_matching_msg (file_type : FileType) (canonical : pydict)
    (engine : pyval) : string :=
  (engine_message_base file_type canonical +:+
   ("which is the same value you have passed via `xarray_open_kwargs`. " +:+
    "If this input file is actually of type '" +:+ FileType_value file_type +:+
    "', you can " +:+
    "remove `{'engine': '" +:+ py_str engine +:+
    "'}` from `xarray_open_kwargs`. ")) +:+
  engine_message_tail file_type.

Definition error_mismatched_msg (file_type : FileType) (canonical : pydict)
    (engine : pyval) : string :=
  (engine_message_base file_type canonical +:+
   ("which is different from the value you have passed via " +:+
    "`xarray_open_kwargs`. If this input file is actually of type " +:+
    "'" +:+ FileType_value file_type +:+ "', please remove `{'engine': '" +:+
    py_str engine +:+ "'}` " +:+
    "from `xarray_open_kwargs`. ")) +:+
  engine_message_tail file_type.

Definition _set_engine (file_type : FileType) (xr_open_kwargs : loc) : M loc :=
  kw ← obj_copy xr_open_kwargs;
  (if decide (file_type = unknown) then
     has ← obj_contains kw "engine";
     if negb has then warn unknown_engine_msg else mret tt
   else
     has ← obj_contains kw "engine";
     if (has : bool) then
       canonical ← OPENER_MAP_getitem file_type;   (* in engine_message_base *)
       e1 ← obj_getitem kw "engine";               (* in warn_matching_msg *)
       e2 ← obj_getitem kw "engine";               (* in error_mismatched_msg *)
       let warn_msg := warn_matching_msg file_type canonical e1 in
       let error_msg := error_mismatched_msg file_type canonical e2 in
       engine ← obj_getitem kw "engine";
       c ← OPENER_MAP_getitem file_type;
       ce ← dict_getitem c "engine";
       if py_eq_str engine ce then warn warn_msg
       else
         engine' ← obj_getitem kw "engine";
         c' ← OPENER_MAP_getitem file_type;
         ce' ← dict_getitem c' "engine";
         if py_ne_str engine' ce' then raise (ValueError error_msg)
         else mret tt
     else
       c ← OPENER_MAP_getitem file_type;
       obj_update kw c);;
  mret kw.

(** The statement that both [open_with_kerchunk] and [open_with_xarray] apply
    to their first argument (the chain of [isinstance] tests). *)
Definition normalize (url_or_file_obj : pyval) (file_type : FileType) : M pyval :=
  match url_or_file_obj with
  | VStr _ => mret url_or_file_obj
  | VFSStore _ =>
      if decide (file_type = zarr) then mret url_or_file_obj
      else raise (ValueError
                    ("FSStore object can only be opened as FileType.zarr; got "
                     +:+ FileType_str file_type))
  | VIOBase _ => mret url_or_file_obj
  | VOpenFile o =>
      f ← invoke (Call_handle_open o) (fun h => handle_open env h o);
      mret (VIOBase f)
  | _ => mret url_or_file_obj
  end.

(** The block headed [Consolidate / post-process references]. *)
Definition consolidate (url_or_file_obj : pyval) (grib_references : list pydict)
    : M pydict :=
  if decide (length grib_references = 1) then
    ref ← list_getitem0 grib_references;
    mret (dict_set ref "templates" (VDict [("u", url_or_file_obj)]))
  else
    ref ← list_getitem0 grib_references;
    let ref := dict_set ref "templates" (VDict [("u", url_or_file_obj)]) in
    refs ← dict_getitem ref "refs";
    primary_refs ← py_copy refs;
    primary_refs ← foldM (fun acc other_ref =>
                            getattr_update acc;;
                            o ← dict_getitem other_ref "refs"; py_update acc o)
                         (tail grib_references) primary_refs;
    mret (dict_set ref "refs" primary_refs).

Definition open_with_kerchunk (url_or_file_obj : pyval) (file_type : FileType)
    (inline_threshold netcdf3_max_chunk_size storage_options grib_filters : pyval)
    : M pydict :=
  url_or_file_obj ← normalize url_or_file_obj file_type;
  if decide (file_type = netcdf4) then
    path ← getattr_path url_or_file_obj;
    it ← getitem0 inline_threshold;
    so ← getitem0 storage_options;
    invoke (Call_SingleHdf5ToZarr url_or_file_obj path it so)
           (fun h => SingleHdf5ToZarr_translate env h url_or_file_obj path it so)
  else if decide (file_type = netcdf3) then
    it ← getitem0 inline_threshold;
    mc ← getitem0 netcdf3_max_chunk_size;
    so ← getitem0 storage_options;
    invoke (Call_NetCDF3ToZarr url_or_file_obj it mc so)
           (fun h => NetCDF3ToZarr_translate env h url_or_file_obj it mc so)
  else if decide (file_type = grib) then
    it ← getitem0 inline_threshold;
    flt ← getitem0 grib_filters;
    so ← getitem0 storage_options;
    grib_references ←
      invoke (Call_scan_grib url_or_file_obj it flt so)
             (fun h => scan_grib env h url_or_file_obj it flt so);
    consolidate url_or_file_obj grib_references
  else
    raise (UnboundLocalError "ref").

(** The default values of the keyword parameters of [open_with_kerchunk]. *)
Definition default_inline_threshold : pyval := VInt 100.
Definition default_netcdf3_max_chunk_size : pyval := VInt 100000000.
Definition default_storage_options : pyval := VNone.
Definition default_grib_filters : pyval := VNone.

Definition copy_target_msg (file_type : FileType) : string :=
  "File type " +:+ FileType_str file_type +:+ " can't be copied to a local file.".

Definition copy_url_msg : string :=
  "Won't copy string URLs to local files. Please call ``open_url`` first.".

Definition local_copy_msg : string :=
  "Input has been copied to a local file, but the Xarray dataset has not been loaded. " +:+
  "The data may not be accessible from other hosts. Consider adding ``load=True``.".

(** [xarray_open_kwargs or {}] on an optional reference to a dict: a missing
    or empty dict gives a new empty dict. *)
Definition or_new_dict (x : option loc) : M loc :=
  match x with
  | None => alloc []
  | Some l =>
      d ← deref l;
      match d with
      | [] => alloc []
      | _ => mret l
      end
  end.

Definition open_with_xarray (url_or_file_obj : pyval) (file_type : FileType)
    (load copy_to_local : bool) (xarray_open_kwargs : option loc) : M string :=
  kw ← or_new_dict xarray_open_kwargs;
  kw ← _set_engine file_type kw;
  url_or_file_obj ←
    (if copy_to_local then
       (if FileType_in file_type [FileType_or zarr opendap]
        then raise (ValueError (copy_target_msg file_type)) else mret tt);;
       match url_or_file_obj with
       | VStr _ => raise (ValueError copy_url_msg)
       | _ =>
           tmp_name ← invoke Call_NamedTemporaryFile
                             (fun h => NamedTemporaryFile env h);
           target_opener ← invoke (Call_open_local tmp_name "wb")
                                  (fun h => open_local env h tmp_name "wb");
           invoke (Call_copy_btw_filesystems url_or_file_obj target_opener)
                  (fun h => _copy_btw_filesystems env h url_or_file_obj
                                                  target_opener);;
           mret (VStr tmp_name)
       end
     else mret url_or_file_obj);
  url_or_file_obj ← normalize url_or_file_obj file_type;
  kwargs ← deref kw;
  ds ← invoke (Call_xr_open_dataset url_or_file_obj kwargs)
              (fun h => xr_open_dataset env h url_or_file_obj kwargs);
  (if load then invoke (Call_ds_load ds) (fun h => ds_load env h ds)
   else mret tt);;
  (if copy_to_local && negb load then warn local_copy_msg else mret tt);;
  mret ds.

End Openers.

(** ** Test doubles

    Collaborators that always succeed, used to run the functions on concrete
    inputs; [double msgs] has its GRIB scanner answer [msgs]. *)

Definition double (msgs : list pydict) : collaborators :=
  {| cache_file := fun _ _ _ _ _ => Ok tt;
     open_file := fun _ _ u _ => Ok (VOpenFile (OpenFile u));
     _get_opener := fun _ u _ _ => Ok (VOpenFile (OpenFile u));
     handle_open := fun _ o => Ok (FileObj "<file>" (Some (of_path o)));
     SingleHdf5ToZarr_translate := fun _ _ _ _ _ =>
       Ok [("version", VInt 1); ("refs", VDict [])];
     NetCDF3ToZarr_translate := fun _ _ _ _ _ =>
       Ok [("version", VInt 1); ("refs", VDict [])];
     scan_grib := fun _ _ _ _ _ => Ok msgs;
     NamedTemporaryFile := fun _ => Ok "/tmp/tmpa1b2c3";
     open_local := fun _ n _ => Ok n;
     _copy_btw_filesystems := fun _ _ _ => Ok tt;
     xr_open_dataset := fun _ _ _ => Ok "dataset";
     ds_load := fun _ _ => Ok tt |}.

(** Per-message mappings as a GRIB scan gives them: three whose [refs] have
    disjoint keys, and one that maps a key of the first again. *)
Definition refs_t2m : pydict :=
  [(".zgroup", VStr "{}");
   ("t2m/0.0", VList [VStr "{{u}}"; VInt 0; VInt 4096])].
Definition refs_u10 : pydict :=
  [("u10/0.0", VList [VStr "{{u}}"; VInt 4096; VInt 4096])].
Definition refs_v10 : pydict :=
  [("v10/0.0", VList [VStr "{{u}}"; VInt 8192; VInt 4096])].
Definition refs_t2m_again : pydict :=
  [("t2m/0.0", VList [VStr "{{u}}"; VInt 12288; VInt 4096])].

Definition message (refs : pydict) : pydict :=
  [("version", VInt 1); ("refs", VDict refs)].

(** Option values that can be subscripted, as the code requires. *)
Definition boxed (v : pyval) : pyval := VList [v].

(** The initial world, and a world holding one dict object at address 1. *)
Definition world0 : world := World ∅ [] [].
Definition world1 (d : pydict) : world := World {[ 1%positive := d ]} [] [].

(** The [refs] sub-mapping of a per-message mapping, when it is a dict. *)
Definition refs_of (m : pydict) : option pydict :=
  match dict_get m "refs" with
  | Some (VDict d) => Some d
  | _ => None
  end.

(** Going through dicts in order and keeping the latest value found for [k]. *)
Definition binding_step (k : string) (acc : option pyval) (d : pydict)
    : option pyval :=
  match dict_get d k with Some v => Some v | None => acc end.

(** The value that the last dict of [rs] holding [k] gives to [k]. *)
Definition last_binding (k : string) (rs : list pydict) : option pyval :=
  fold_left (binding_step k) rs None.

(** The [templates] entry built for a source. *)
Definition templates_for (url_or_file_obj : pyval) : pyval :=
  VDict [("u", url_or_file_obj)].

(** A dict object has distinct keys. *)
Definition dict_wf (d : pydict) : Prop := NoDup (dict_keys d).

(** [s] occurs in [msg]. *)
Definition occurs_in (s msg : string) : Prop :=
  exists pre post, msg = pre +:+ s +:+ post.

(** [TypeError] and [AttributeError], the errors of using a value against
    its type. *)
Definition is_type_or_attribute_error (e : exn) : bool :=
  match e with
  | TypeError _ | AttributeError _ => true
  | _ => false
  end.

(** No call of [t] goes to a kerchunk scanner. *)
Definition no_scanner_call (t : list call) : bool :=
  forallb (fun c => negb (is_scanner_call c)) t.

(** Collaborators that all raise [e]. *)
Definition failing (e : exn) : collaborators :=
  {| cache_file := fun _ _ _ _ _ => Err e;
     open_file := fun _ _ _ _ => Err e;
     _get_opener := fun _ _ _ _ => Err e;
     handle_open := fun _ _ => Err e;
     SingleHdf5ToZarr_translate := fun _ _ _ _ _ => Err e;
     NetCDF3ToZarr_translate := fun _ _ _ _ _ => Err e;
     scan_grib := fun _ _ _ _ _ => Err e;
     NamedTemporaryFile := fun _ => Err e;
     open_local := fun _ _ _ => Err e;
     _copy_btw_filesystems := fun _ _ _ => Err e;
     xr_open_dataset := fun _ _ _ => Err e;
     ds_load := fun _ _ => Err e |}.

(** Collaborators that succeed, except that copying the bytes raises [e]. *)
Definition double_copy_fails (e : exn) : collaborators :=
  {| cache_file := cache_file (double []);
     open_file := open_file (double []);
     _get_opener := _get_opener (double []);
     handle_open := handle_open (double []);
     SingleHdf5ToZarr_translate := SingleHdf5ToZarr_translate (double []);
     NetCDF3ToZarr_translate := NetCDF3ToZarr_translate (double []);
     scan_grib := scan_grib (double []);
     NamedTemporaryFile := NamedTemporaryFile (double []);
     open_local := open_local (double []);
     _copy_btw_filesystems := fun _ _ _ => Err e;
     xr_open_dataset := xr_open_dataset (double []);
     ds_load := ds_load (double []) |}.

(** A computation that leaves every dict object as it found it. *)
Definition keeps_heap {A} (m : M A) : Prop :=
  forall w, heap (m w).2 = heap w.

(** * Properties *)

(** ** Dicts *)

Lemma dict_get_set_eq d k v : dict_get (dict_set d k v) k = Some v.
Proof.
  induction d as [|[k' v'] d IH]; simpl.
  - by rewrite decide_True.
  - destruct (decide (k' = k)) as [->|Hne]; simpl.
    + by rewrite decide_True.
    + by rewrite decide_False.
Qed.

Lemma dict_get_set_ne d k k' v :
  k <> k' -> dict_get (dict_set d k v) k' = dict_get d k'.
Proof.
  intros Hne. induction d as [|[k0 v0] d IH]; simpl.
  - by rewrite decide_False.
  - destruct (decide (k0 = k)) as [->|Hk]; simpl.
    + by rewrite !decide_False.
    + destruct (decide (k0 = k')); [done | apply IH].
Qed.

Lemma dict_get_None d k : dict_get d k = None <-> k ∉ dict_keys d.
Proof.
  unfold dict_keys. induction d as [|[k' v'] d IH]; simpl.
  - split; [intros _; apply not_elem_of_nil | done].
  - rewrite not_elem_of_cons. destruct (decide (k' = k)) as [->|Hne].
    + split; [done | intros [? _]; congruence].
    + rewrite IH. split; [intros ?; split; [congruence | done] | by intros [_ ?]].
Qed.

Lemma dict_set_absent d k v :
  dict_get d k = None -> dict_set d k v = d ++ [(k, v)].
Proof.
  induction d as [|[k' v'] d IH]; simpl; [done |].
  destruct (decide (k' = k)); [done |]. intros H. by rewrite IH.
Qed.

Lemma dict_get_update d o k :
  dict_wf o ->
  dict_get (dict_update d o) k =
    match dict_get o k with Some v => Some v | None => dict_get d k end.
Proof.
  unfold dict_wf, dict_keys, dict_update. revert d.
  induction o as [|[k1 v1] o IH]; intros d Hwf; simpl; [done |].
  inversion Hwf as [|? ? Hnotin Hwf']; subst.
  rewrite IH by done. destruct (decide (k1 = k)) as [->|Hne].
  - assert (dict_get o k = None) as -> by by apply dict_get_None.
    apply dict_get_set_eq.
  - destruct (dict_get o k); [done |]. by apply dict_get_set_ne.
Qed.

(** ** The monad *)

Lemma bind_run {A B} (m : M A) (f : A -> M B) w :
  (m ≫= f) w =
    match m w with
    | (Ok a, w') => f a w'
    | (Err e, w') => (Err e, w')
    end.
Proof. reflexivity. Qed.

Lemma fresh_loc_unused (h : gmap loc pydict) : h !! fresh (dom h) = None.
Proof. apply not_elem_of_dom, is_fresh. Qed.

Lemma fresh_loc_ne (h : gmap loc pydict) l d :
  h !! l = Some d -> l <> fresh (dom h).
Proof. intros Hl ->. rewrite fresh_loc_unused in Hl. discriminate. Qed.

Ltac unfold_monad :=
  unfold obj_copy, obj_contains, obj_getitem, obj_update, dict_getitem,
    getitem0, lift, deref, alloc, assign, warn, raise, invoke,
    mbind, M_bind, mret, M_ret in *.

Ltac heap_simpl :=
  repeat first
    [ rewrite lookup_insert_eq
    | rewrite insert_insert_eq
    | progress simpl ].

(** ** [_set_engine] *)

(** What a call of [_set_engine] does, case by case. *)
Lemma _set_engine_run file_type l h ws cs d :
  h !! l = Some d ->
  let l' := fresh (dom h) in
  _set_engine file_type l (World h ws cs) =
    if decide (file_type = unknown) then
      (Ok l',
       World (<[l' := d]> h)
             (if dict_contains d "engine" then ws else ws ++ [unknown_engine_msg])
             cs)
    else
      match OPENER_MAP_get OPENER_MAP file_type with
      | None => (Err (KeyError (FileType_repr file_type)), World (<[l' := d]> h) ws cs)
      | Some c =>
          match dict_get d "engine" with
          | None => (Ok l', World (<[l' := dict_update d c]> h) ws cs)
          | Some e =>
              match dict_get c "engine" with
              | None => (Err (KeyError (str_repr "engine")), World (<[l' := d]> h) ws cs)
              | Some ce =>
                  if py_eq_str e ce then
                    (Ok l', World (<[l' := d]> h)
                                  (ws ++ [warn_matching_msg file_type c e]) cs)
                  else
                    (Err (ValueError (error_mismatched_msg file_type c e)),
                     World (<[l' := d]> h) ws cs)
              end
          end
      end.
Proof.
  intros Hl l'. unfold _set_engine, OPENER_MAP_getitem. unfold_monad.
  simpl. rewrite Hl. heap_simpl. unfold dict_contains.
  destruct file_type; simpl;
    destruct (dict_get d "engine") as [e|] eqn:He;
    repeat (progress (heap_simpl; rewrite ?He)); try reflexivity;
    unfold py_ne_str;
    match goal with
    | |- context [py_eq_str ?a ?b] => destruct (py_eq_str a b) eqn:Heq
    end; repeat (progress (heap_simpl; rewrite ?He, ?Heq)); reflexivity.
Qed.

Lemma append_assoc (s1 s2 s3 : string) :
  (s1 +:+ s2) +:+ s3 = s1 +:+ (s2 +:+ s3).
Proof.
  induction s1 as [|a s1 IH]; [reflexivity |].
  change (String a ((s1 +:+ s2) +:+ s3) = String a (s1 +:+ (s2 +:+ s3))).
  by rewrite IH.
Qed.

Lemma py_eq_str_ne e s : e <> VStr s -> py_eq_str e (VStr s) = false.
Proof.
  intros Hne. destruct e; simpl; try reflexivity.
  apply bool_decide_eq_false. congruence.
Qed.

Lemma canonical_engine_known file_type :
  file_type ∈ [netcdf3; netcdf4; zarr] ->
  exists engine,
    OPENER_MAP_get OPENER_MAP file_type = Some [("engine", VStr engine)]
    /\ canonical_engine file_type = Some (VStr engine).
Proof.
  rewrite !elem_of_cons, elem_of_nil.
  intros [->|[->|[->|[]]]]; eexists; split; reflexivity.
Qed.

(** The message of the mismatch error shows the canonical engine and the
    engine that was passed. *)
Lemma error_mismatched_msg_carries file_type canonical e :
  occurs_in canonical
    (error_mismatched_msg file_type [("engine", VStr canonical)] e)
  /\ occurs_in (py_str e)
    (error_mismatched_msg file_type [("engine", VStr canonical)] e).
Proof.
  unfold occurs_in, error_mismatched_msg, engine_message_base. simpl py_repr.
  unfold str_repr. split.
  - exists ("pangeo-forge-recipes will automatically set the xarray backend for "
            +:+ "files of type '" +:+ FileType_value file_type +:+ "' to '"
            +:+ "{'engine': '").
    eexists. rewrite !append_assoc. reflexivity.
  - exists (engine_message_base file_type [("engine", VStr canonical)]
            +:+ "which is different from the value you have passed via "
            +:+ "`xarray_open_kwargs`. If this input file is actually of type "
            +:+ "'" +:+ FileType_value file_type
            +:+ "', please remove `{'engine': '").
    eexists. unfold engine_message_base. simpl py_repr. unfold str_repr.
    rewrite !append_assoc. reflexivity.
Qed.

(** C2, as stated, fails: for [grib] (and [opendap]) [OPENER_MAP] has no
    entry, and [_set_engine] applied to the empty options raises [KeyError]
    instead of succeeding. *)
Lemma set_engine_grib_no_canonical_engine :
  (_set_engine grib 1%positive (world1 [])).1
    = Err (KeyError "<FileType.grib: 'grib'>")
  /\ ~ (forall file_type, file_type ∈ [netcdf3; netcdf4; zarr; grib; opendap] ->
        forall l w d, heap w !! l = Some d -> dict_contains d "engine" = false ->
        is_Ok (_set_engine file_type l w).1 = true).
Proof.
  split; [reflexivity |].
  intros H.
  specialize (H grib ltac:(set_solver) 1%positive (world1 []) []
                eq_refl eq_refl).
  vm_compute in H. discriminate.
Qed.

(** C2 (amended): for each file type that has an entry in [OPENER_MAP]
    (netcdf3, netcdf4, zarr) and options holding no explicit engine,
    [_set_engine] succeeds; the dict it returns is the caller's options
    followed by exactly one more entry, [engine] bound to the canonical engine
    of the type, and no warning is emitted. *)
Theorem set_engine_inserts_canonical_engine file_type l w d :
  file_type ∈ [netcdf3; netcdf4; zarr] ->
  heap w !! l = Some d ->
  dict_contains d "engine" = false ->
  exists l' engine,
    canonical_engine file_type = Some engine
    /\ (_set_engine file_type l w).1 = Ok l'
    /\ heap (_set_engine file_type l w).2 !! l' = Some (d ++ [("engine", engine)])
    /\ warnings (_set_engine file_type l w).2 = warnings w.
Proof.
  intros Hft Hl Hno. destruct w as [h ws cs]; simpl in Hl.
  destruct (canonical_engine_known _ Hft) as (engine & Hmap & Hcan).
  exists (fresh (dom h)), (VStr engine). split; [done |].
  rewrite (_set_engine_run _ _ _ _ _ _ Hl).
  assert (file_type <> unknown) as Hu by (intros ->; set_solver).
  rewrite decide_False by done. rewrite Hmap.
  unfold dict_contains in Hno.
  destruct (dict_get d "engine") eqn:He; [discriminate |]. simpl.
  rewrite lookup_insert_eq. unfold dict_update. simpl.
  by rewrite dict_set_absent.
Qed.

Lemma set_engine_inserts_canonical_engine_witness :
  let w := world1 [("decode_times", VBool false)] in
  exists l' engine,
    canonical_engine netcdf4 = Some engine
    /\ (_set_engine netcdf4 1%positive w).1 = Ok l'
    /\ heap (_set_engine netcdf4 1%positive w).2 !! l'
       = Some ([("decode_times", VBool false)] ++ [("engine", engine)])
    /\ warnings (_set_engine netcdf4 1%positive w).2 = warnings w.
Proof.
  apply (set_engine_inserts_canonical_engine netcdf4 1%positive
           (world1 [("decode_times", VBool false)])
           [("decode_times", VBool false)]).
  - by apply (bool_decide_unpack _); vm_compute.
  - reflexivity.
  - reflexivity.
Defined.

(** C5, as stated, fails: for [grib] the table designates no engine, and an
    explicit engine makes [_set_engine] raise [KeyError], not the mismatch
    [ValueError]. *)
Lemma set_engine_grib_explicit_engine_keyerror :
  (_set_engine grib 1%positive (world1 [("engine", VStr "scipy")])).1
    = Err (KeyError "<FileType.grib: 'grib'>")
  /\ ~ (forall file_type, file_type ∈ [netcdf3; netcdf4; zarr; grib; opendap] ->
        forall l w d e, heap w !! l = Some d -> dict_get d "engine" = Some e ->
        canonical_engine file_type <> Some e ->
        exists msg, (_set_engine file_type l w).1 = Err (ValueError msg)).
Proof.
  split; [reflexivity |].
  intros H.
  destruct (H grib ltac:(set_solver) 1%positive
              (world1 [("engine", VStr "scipy")]) [("engine", VStr "scipy")]
              (VStr "scipy") eq_refl eq_refl ltac:(discriminate)) as [msg Hmsg].
  vm_compute in Hmsg. discriminate.
Qed.

(** C5 (amended): for each file type that has an entry in [OPENER_MAP]
    (netcdf3, netcdf4, zarr) and every explicit engine value different from
    the canonical engine of the type, [_set_engine] raises [ValueError]; the
    message shows both the canonical engine and the engine that was passed,
    and no warning is emitted. *)
Theorem set_engine_conflict file_type l w d e :
  file_type ∈ [netcdf3; netcdf4; zarr] ->
  heap w !! l = Some d ->
  dict_get d "engine" = Some e ->
  canonical_engine file_type <> Some e ->
  exists canonical msg,
    canonical_engine file_type = Some (VStr canonical)
    /\ (_set_engine file_type l w).1 = Err (ValueError msg)
    /\ occurs_in canonical msg
    /\ occurs_in (py_str e) msg
    /\ warnings (_set_engine file_type l w).2 = warnings w.
Proof.
  intros Hft Hl He Hne. destruct w as [h ws cs]; simpl in Hl.
  destruct (canonical_engine_known _ Hft) as (engine & Hmap & Hcan).
  exists engine, (error_mismatched_msg file_type [("engine", VStr engine)] e).
  split; [done |].
  rewrite (_set_engine_run _ _ _ _ _ _ Hl).
  assert (file_type <> unknown) as Hu by (intros ->; set_solver).
  rewrite decide_False by done. rewrite Hmap, He. simpl.
  rewrite py_eq_str_ne by congruence. simpl.
  destruct (error_mismatched_msg_carries file_type engine e) as [? ?].
  done.
Qed.

Lemma set_engine_conflict_witness :
  let w := world1 [("engine", VStr "netcdf4")] in
  exists canonical msg,
    canonical_engine zarr = Some (VStr canonical)
    /\ (_set_engine zarr 1%positive w).1 = Err (ValueError msg)
    /\ occurs_in canonical msg
    /\ occurs_in (py_str (VStr "netcdf4")) msg
    /\ warnings (_set_engine zarr 1%positive w).2 = warnings w.
Proof.
  apply (set_engine_conflict zarr 1%positive
           (world1 [("engine", VStr "netcdf4")])
           [("engine", VStr "netcdf4")] (VStr "netcdf4")).
  - by apply (bool_decide_unpack _); vm_compute.
  - reflexivity.
  - reflexivity.
  - vm_compute. discriminate.
Defined.

(** C10: [_set_engine] never mutates the caller's options: whatever the file
    type and the options, and whether the call returns, warns or raises, the
    dict object it was given, and every other object that existed before the
    call, holds afterwards what it held before; the dict it returns is a new
    object, distinct from the caller's, holding a copy. *)
Theorem set_engine_preserves_caller_options file_type l w d :
  heap w !! l = Some d ->
  heap (_set_engine file_type l w).2 !! l = Some d
  /\ (forall l0, is_Some (heap w !! l0) ->
        heap (_set_engine file_type l w).2 !! l0 = heap w !! l0)
  /\ (forall l', (_set_engine file_type l w).1 = Ok l' ->
        l' <> l /\ heap w !! l' = None
        /\ exists d', heap (_set_engine file_type l w).2 !! l' = Some d'
             /\ forall k, k <> "engine" -> dict_get d' k = dict_get d k).
Proof.
  intros Hl. destruct w as [h ws cs]; simpl in Hl.
  rewrite (_set_engine_run _ _ _ _ _ _ Hl).
  pose proof (fresh_loc_unused h) as Hfresh.
  assert (l <> fresh (dom h)) as Hne by by eapply fresh_loc_ne.
  assert (forall d' l0, is_Some (h !! l0) ->
            <[fresh (dom h) := d']> h !! l0 = h !! l0) as Hframe.
  { intros d' l0 [d0 Hd0]. apply lookup_insert_ne.
    symmetry. by eapply fresh_loc_ne. }
  destruct file_type; simpl;
    repeat match goal with
           | |- context [if ?b then _ else _] => destruct b
           | |- context [match ?o with Some _ => _ | None => _ end] => destruct o
           end;
    simpl; (split; [| split]);
    try (rewrite Hframe by eauto; done);
    try apply Hframe;
    try (intros l' ?; discriminate);
    intros l' [= <-]; (split; [| split]); try done;
    rewrite lookup_insert_eq; eexists; (split; [reflexivity |]);
    intros k Hk; try reflexivity;
    unfold dict_update; simpl; by rewrite dict_get_set_ne.
Qed.

Lemma set_engine_preserves_caller_options_witness :
  let d := [("engine", VStr "h5netcdf"); ("chunks", VDict [])] in
  let r := _set_engine netcdf4 1%positive (world1 d) in
  heap r.2 !! 1%positive = Some d
  /\ (forall l0, is_Some (heap (world1 d) !! l0) ->
        heap r.2 !! l0 = heap (world1 d) !! l0)
  /\ (forall l', r.1 = Ok l' ->
        l' <> 1%positive /\ heap (world1 d) !! l' = None
        /\ exists d', heap r.2 !! l' = Some d'
             /\ forall k, k <> "engine" -> dict_get d' k = dict_get d k).
Proof.
  apply (set_engine_preserves_caller_options netcdf4 1%positive
           (world1 [("engine", VStr "h5netcdf"); ("chunks", VDict [])])
           [("engine", VStr "h5netcdf"); ("chunks", VDict [])]).
  reflexivity.
Defined.

(** ** [open_url] *)

(** C7: with a cache, [open_url] calls [cache_file] first and [open_file]
    second, and what it returns is what [open_file] returned (when
    [cache_file] raises, [open_file] is not called and the error propagates);
    without a cache the handle comes from one call of [_get_opener], which is
    given the secrets. *)
Theorem open_url_prefetch_before_open env url secrets open_kwargs w :
  let kw := or_empty open_kwargs in
  (forall cache,
     let prefetch := Call_cache_file cache url secrets kw in
     let opening := Call_open_file cache url "rb" in
     let r := open_url env url (Some cache) secrets open_kwargs w in
     match cache_file env (calls w) cache url secrets kw with
     | Ok _ =>
         calls r.2 = calls w ++ [prefetch; opening]
         /\ r.1 = open_file env (calls w ++ [prefetch]) cache url "rb"
     | Err e => calls r.2 = calls w ++ [prefetch] /\ r.1 = Err e
     end)
  /\ (let r := open_url env url None secrets open_kwargs w in
      calls r.2 = calls w ++ [Call_get_opener url secrets kw]
      /\ r.1 = _get_opener env (calls w) url secrets kw).
Proof.
  intros kw. split.
  - intros cache prefetch opening. unfold open_url. fold kw. unfold_monad.
    simpl. destruct (cache_file env (calls w) cache url secrets kw); simpl.
    + by rewrite <- app_assoc.
    + done.
  - unfold open_url. fold kw. unfold_monad. simpl. done.
Qed.

(** ** [open_with_xarray] *)

Lemma or_new_dict_None_run h ws cs :
  or_new_dict None (World h ws cs)
  = (Ok (fresh (dom h)), World (<[fresh (dom h) := []]> h) ws cs).
Proof. reflexivity. Qed.

(** C3 (the code at the failing input): for [opendap] with [copy_to_local]
    set, [open_with_xarray] does not raise the cannot-be-copied [ValueError].
    The list [[FileType.zarr or FileType.opendap]] of line 189 has the single
    member [zarr], so [opendap] is not in it; and the call fails before that
    line, in [_set_engine], with a [KeyError], [OPENER_MAP] having no entry
    for [opendap].  No temporary file is created and nothing is copied. *)
Theorem open_with_xarray_opendap_not_rejected env src load w :
  FileType_in opendap [FileType_or zarr opendap] = false
  /\ (open_with_xarray env src opendap load true None w).1
     = Err (KeyError "<FileType.opendap: 'opendap'>")
  /\ calls (open_with_xarray env src opendap load true None w).2 = calls w.
Proof.
  split; [reflexivity |]. destruct w as [h ws cs].
  unfold open_with_xarray. rewrite bind_run, or_new_dict_None_run.
  rewrite bind_run.
  rewrite (_set_engine_run opendap _ _ _ _ [] (lookup_insert_eq _ _ _)).
  simpl. done.
Qed.

(** The [zarr] half of the same guard: with the default options the
    cannot-be-copied [ValueError] is raised, before any call. *)
Lemma open_with_xarray_zarr_rejected env src load w :
  (open_with_xarray env src zarr load true None w).1
  = Err (ValueError "File type FileType.zarr can't be copied to a local file.")
  /\ calls (open_with_xarray env src zarr load true None w).2 = calls w.
Proof.
  destruct w as [h ws cs].
  unfold open_with_xarray. rewrite bind_run, or_new_dict_None_run.
  rewrite bind_run.
  rewrite (_set_engine_run zarr _ _ _ _ [] (lookup_insert_eq _ _ _)).
  simpl. done.
Qed.

(** ** [open_with_kerchunk] *)

(** What normalising the source does, case by case. *)
Lemma normalize_run env src file_type w :
  normalize env src file_type w =
    match src with
    | VFSStore _ =>
        if decide (file_type = zarr) then (Ok src, w)
        else (Err (ValueError
                     ("FSStore object can only be opened as FileType.zarr; got "
                      +:+ FileType_str file_type)), w)
    | VOpenFile o =>
        match handle_open env (calls w) o with
        | Ok f => (Ok (VIOBase f),
                   World (heap w) (warnings w) (calls w ++ [Call_handle_open o]))
        | Err e => (Err e,
                    World (heap w) (warnings w) (calls w ++ [Call_handle_open o]))
        end
    | _ => (Ok src, w)
    end.
Proof.
  destruct src; try reflexivity; simpl; unfold_monad;
    first [ by destruct (decide (file_type = zarr))
          | by destruct (handle_open env (calls w) o) ].
Qed.

(** Normalising the source calls no scanner. *)
Lemma normalize_calls env src file_type w :
  exists t, calls (normalize env src file_type w).2 = calls w ++ t
            /\ no_scanner_call t = true.
Proof.
  rewrite normalize_run.
  destruct src; try (exists []; by rewrite app_nil_r).
  - destruct (decide (file_type = zarr)); exists []; by rewrite app_nil_r.
  - destruct (handle_open env (calls w) o); by eexists [_].
Qed.



(** C9, as stated, fails: with the default options and file type netcdf4, an
    [FSStore] source makes the call fail with the [ValueError] of the source
    check, which is neither a [TypeError] nor an [AttributeError]. *)
Lemma open_with_kerchunk_fsstore_netcdf4 :
  (open_with_kerchunk (double []) (VFSStore (FSStore "<FSStore>" "bucket/store"))
     netcdf4 default_inline_threshold default_netcdf3_max_chunk_size
     default_storage_options default_grib_filters world0).1
  = Err (ValueError
           "FSStore object can only be opened as FileType.zarr; got FileType.netcdf4")
  /\ ~ (forall env src file_type w,
          file_type ∈ [netcdf4; netcdf3; grib] ->
          exists e,
            (open_with_kerchunk env src file_type default_inline_threshold
               default_netcdf3_max_chunk_size default_storage_options
               default_grib_filters w).1 = Err e
            /\ is_type_or_attribute_error e = true).
Proof.
  split; [reflexivity |].
  intros H.
  destruct (H (double []) (VFSStore (FSStore "<FSStore>" "bucket/store"))
              netcdf4 world0 ltac:(set_solver)) as (e & He & Hte).
  vm_compute in He. injection He as <-. discriminate.
Qed.

(** C9 (amended): for file type netcdf4, netcdf3 or grib, the options are
    subscripted before the scanner is called.  Hence every call whose source
    passes the source check and whose [inline_threshold] is the default 100
    fails with a [TypeError] or an [AttributeError], whatever the other
    options, and every netcdf4 call on a plain string URL fails with the
    [AttributeError] of reading [path] from a str; in both cases no scanner
    has been called. *)
Theorem open_with_kerchunk_fails_before_scanning env w :
  (forall src file_type mc so gf src' w',
     file_type ∈ [netcdf4; netcdf3; grib] ->
     normalize env src file_type w = (Ok src', w') ->
     let r := open_with_kerchunk env src file_type default_inline_threshold
                mc so gf w in
     (exists e, r.1 = Err e /\ is_type_or_attribute_error e = true)
     /\ r.2 = w'
     /\ exists t, calls r.2 = calls w ++ t /\ no_scanner_call t = true)
  /\ (forall url it mc so gf,
        open_with_kerchunk env (VStr url) netcdf4 it mc so gf w
        = (Err (AttributeError "'str' object has no attribute 'path'"), w)).
Proof.
  split.
  - intros src file_type mc so gf src' w' Hft Hn r.
    destruct (normalize_calls env src file_type w) as (t & Ht & Hns).
    rewrite Hn in Ht. simpl in Ht.
    assert ((exists e, r.1 = Err e /\ is_type_or_attribute_error e = true)
            /\ r.2 = w') as [He Hw].
    { subst r. unfold open_with_kerchunk. rewrite bind_run, Hn.
      rewrite !elem_of_cons, elem_of_nil in Hft.
      destruct Hft as [->|[->|[->|[]]]]; simpl.
      - unfold getattr_path. unfold_monad.
        destruct src' as [| | | | | | s | f | o]; simpl; eauto.
        destruct (fo_path f); simpl; eauto.
      - unfold_monad. simpl. eauto.
      - unfold_monad. simpl. eauto. }
    split; [done |]. split; [done |]. exists t. by rewrite Hw.
  - intros url it mc so gf. reflexivity.
Qed.

Lemma open_with_kerchunk_fails_before_scanning_witness :
  let src := VIOBase (FileObj "<LocalFileOpener>" (Some "/data/a.grib2")) in
  let r := open_with_kerchunk (double []) src grib default_inline_threshold
             default_netcdf3_max_chunk_size default_storage_options
             default_grib_filters world0 in
  (exists e, r.1 = Err e /\ is_type_or_attribute_error e = true)
  /\ r.2 = world0
  /\ exists t, calls r.2 = calls world0 ++ t /\ no_scanner_call t = true.
Proof.
  apply (proj1 (open_with_kerchunk_fails_before_scanning (double []) world0)
           (VIOBase (FileObj "<LocalFileOpener>" (Some "/data/a.grib2"))) grib
           default_netcdf3_max_chunk_size default_storage_options
           default_grib_filters
           (VIOBase (FileObj "<LocalFileOpener>" (Some "/data/a.grib2")))
           world0).
  - by apply (bool_decide_unpack _); vm_compute.
  - reflexivity.
Defined.

(** *** Merging the per-message references *)

Section Merge.

Variable k : string.

Local Abbreviation step := (binding_step k).

Lemma fold_step_absent rs init :
  (forall r, r ∈ rs -> dict_get r k = None) -> fold_left step rs init = init.
Proof.
  revert init. induction rs as [|r rs IH]; intros init Hnone; simpl; [done |].
  rewrite IH by (intros r' Hr'; apply Hnone; by right).
  unfold binding_step. by rewrite Hnone by left.
Qed.

Lemma fold_step_last rs init j rj v :
  rs !! j = Some rj -> dict_get rj k = Some v ->
  (forall j' rj', j < j' -> rs !! j' = Some rj' -> dict_get rj' k = None) ->
  fold_left step rs init = Some v.
Proof.
  revert init j. induction rs as [|r rs IH]; intros init j Hj Hv Hlater.
  - by rewrite lookup_nil in Hj.
  - destruct j as [|j]; simpl in *.
    + injection Hj as ->. rewrite fold_step_absent.
      * unfold binding_step. by rewrite Hv.
      * intros r' Hr'. apply list_elem_of_lookup in Hr' as [i Hi].
        apply (Hlater (S i) r'); [lia | done].
    + apply (IH _ j); [done | done |].
      intros j' rj' Hlt Hj'. apply (Hlater (S j') rj'); [lia | done].
Qed.

Lemma fold_step_origin rs init v :
  fold_left step rs init = Some v ->
  init = Some v \/ exists r, r ∈ rs /\ dict_get r k = Some v.
Proof.
  revert init. induction rs as [|r rs IH]; intros init; simpl; [by left |].
  intros H. apply IH in H as [H|(r' & Hr' & Hv)].
  - unfold binding_step in H. destruct (dict_get r k) eqn:Hr.
    + right. exists r. split; [by left | congruence].
    + by left.
  - right. exists r'. split; [by right | done].
Qed.

Lemma dict_get_merged rs d0 :
  Forall dict_wf rs ->
  dict_get (fold_left dict_update rs d0) k = fold_left step rs (dict_get d0 k).
Proof.
  revert d0. induction rs as [|r rs IH]; intros d0 Hwf; simpl; [done |].
  inversion Hwf; subst. rewrite IH by done. f_equal.
  by apply dict_get_update.
Qed.

Lemma dict_get_merged_last r0 rs :
  Forall dict_wf rs ->
  dict_get (fold_left dict_update rs r0) k = last_binding k (r0 :: rs).
Proof.
  intros Hwf. rewrite dict_get_merged by done. unfold last_binding. simpl.
  f_equal. unfold binding_step. by destruct (dict_get r0 k).
Qed.

End Merge.

Lemma merged_last_writer r0 rs k j rj v :
  Forall dict_wf rs ->
  (r0 :: rs) !! j = Some rj -> dict_get rj k = Some v ->
  (forall j' rj', j < j' -> (r0 :: rs) !! j' = Some rj' -> dict_get rj' k = None) ->
  dict_get (fold_left dict_update rs r0) k = Some v.
Proof.
  intros Hwf Hj Hv Hlater. rewrite dict_get_merged_last by done.
  by eapply fold_step_last.
Qed.

Lemma merged_absent r0 rs k :
  Forall dict_wf rs ->
  (forall r, r ∈ r0 :: rs -> dict_get r k = None) ->
  dict_get (fold_left dict_update rs r0) k = None.
Proof.
  intros Hwf Hnone. rewrite dict_get_merged_last by done.
  by apply fold_step_absent.
Qed.

Lemma merged_origin r0 rs k v :
  Forall dict_wf rs ->
  dict_get (fold_left dict_update rs r0) k = Some v ->
  exists r, r ∈ r0 :: rs /\ dict_get r k = Some v.
Proof.
  intros Hwf. rewrite dict_get_merged_last by done. intros H.
  apply fold_step_origin in H as [H|H]; [discriminate | done].
Qed.

(** *** The consolidation block *)

Lemma merge_refs_run others rs d0 w :
  Forall2 (fun m r => refs_of m = Some r) others rs ->
  foldM (fun acc other_ref =>
           getattr_update acc;;
           o ← dict_getitem other_ref "refs"; py_update acc o)
        others (VDict d0) w
  = (Ok (VDict (fold_left dict_update rs d0)), w).
Proof.
  intros H. revert d0. induction H as [|m r others rs Hm _ IH]; intros d0.
  - reflexivity.
  - simpl. rewrite bind_run. unfold refs_of in Hm.
    unfold dict_getitem. rewrite bind_run.
    destruct (dict_get m "refs") as [[]|]; try discriminate.
    injection Hm as ->. simpl. apply IH.
Qed.

Lemma consolidate_single src m0 w :
  consolidate src [m0] w = (Ok (dict_set m0 "templates" (templates_for src)), w).
Proof. reflexivity. Qed.

Lemma consolidate_several src m0 others r0 rs w :
  others <> [] ->
  refs_of m0 = Some r0 ->
  Forall2 (fun m r => refs_of m = Some r) others rs ->
  consolidate src (m0 :: others) w
  = (Ok (dict_set (dict_set m0 "templates" (templates_for src)) "refs"
                  (VDict (fold_left dict_update rs r0))), w).
Proof.
  intros Hne Hm0 Hothers. unfold consolidate.
  rewrite decide_False by (destruct others; simpl; [done | lia]).
  simpl. rewrite bind_run. simpl. unfold dict_getitem. rewrite bind_run.
  rewrite dict_get_set_ne by done. unfold refs_of in Hm0.
  destruct (dict_get m0 "refs") as [[]|]; try discriminate.
  injection Hm0 as ->. simpl. rewrite bind_run. simpl. rewrite bind_run.
  by rewrite (merge_refs_run _ _ _ _ Hothers).
Qed.

(** The GRIB branch, up to the consolidation. *)
Lemma open_with_kerchunk_grib_run env src inline_threshold mc storage_options
    grib_filters w src' w1 it flt so msgs :
  normalize env src grib w = (Ok src', w1) ->
  subscript0 inline_threshold = Ok it ->
  subscript0 grib_filters = Ok flt ->
  subscript0 storage_options = Ok so ->
  scan_grib env (calls w1) src' it flt so = Ok msgs ->
  open_with_kerchunk env src grib inline_threshold mc storage_options
    grib_filters w
  = consolidate src' msgs
      (World (heap w1) (warnings w1)
             (calls w1 ++ [Call_scan_grib src' it flt so])).
Proof.
  intros Hn Hit Hflt Hso Hscan. unfold open_with_kerchunk.
  rewrite bind_run, Hn. simpl. unfold getitem0, lift.
  rewrite !bind_run, Hit. rewrite !bind_run, Hflt. rewrite !bind_run, Hso.
  unfold invoke. rewrite bind_run. by rewrite Hscan.
Qed.

(** *** Consolidated GRIB references *)

Section GribScan.

(** A call on a GRIB source that gets as far as the scanner: the source check
    passes, the three options can be subscripted, and the scan answers with
    the per-message mappings [msgs], whose [refs] are the dicts [rs]. *)
Variables (env : collaborators) (w w1 : world).
Variables (src src' inline_threshold mc storage_options grib_filters : pyval).
Variables (it flt so : pyval) (msgs rs : list pydict).

Hypothesis Hsource : normalize env src grib w = (Ok src', w1).
Hypothesis Hinline : subscript0 inline_threshold = Ok it.
Hypothesis Hfilter : subscript0 grib_filters = Ok flt.
Hypothesis Hstorage : subscript0 storage_options = Ok so.
Hypothesis Hscan : scan_grib env (calls w1) src' it flt so = Ok msgs.
Hypothesis Hrefs : Forall2 (fun m r => refs_of m = Some r) msgs rs.
Hypothesis Hwf : Forall dict_wf rs.

Local Abbreviation run :=
  (open_with_kerchunk env src grib inline_threshold mc storage_options
     grib_filters w).

(** C1 (amended): when the scan gives two or more per-message mappings, the
    first one is the base of the result and the [refs] of the others are
    merged into its [refs] in order, the last writer winning: a key keeps the
    value of the last message that maps it, also when an earlier message maps
    the same key, and a key that no message maps is absent. *)
Theorem grib_merge_last_writer_wins :
  2 <= length msgs ->
  exists res merged,
    run.1 = Ok res
    /\ dict_get res "refs" = Some (VDict merged)
    /\ (forall k j rj v,
          rs !! j = Some rj -> dict_get rj k = Some v ->
          (forall j' rj', j < j' -> rs !! j' = Some rj' -> dict_get rj' k = None) ->
          dict_get merged k = Some v)
    /\ (forall k, (forall r, r ∈ rs -> dict_get r k = None) ->
          dict_get merged k = None)
    /\ (forall k m0, k <> "refs" -> k <> "templates" -> head msgs = Some m0 ->
          dict_get res k = dict_get m0 k).
Proof.
  intros Hlen.
  rewrite (open_with_kerchunk_grib_run _ _ _ _ _ _ _ _ _ _ _ _ _
             Hsource Hinline Hfilter Hstorage Hscan).
  destruct Hrefs as [|m0 r0 others rs' Hm0 Hothers]; [simpl in Hlen; lia |].
  assert (others <> []) as Hne by (destruct others; simpl in Hlen; [lia | done]).
  rewrite (consolidate_several _ _ _ _ _ _ Hne Hm0 Hothers).
  inversion Hwf as [|? ? _ Hwf']; subst.
  eexists _, _. split; [reflexivity |]. split; [apply dict_get_set_eq |].
  split; [| split].
  - intros k j rj v. by apply merged_last_writer.
  - intros k. by apply merged_absent.
  - intros k m Hk1 Hk2 [= <-]. by rewrite !dict_get_set_ne.
Qed.

(** C6 (amended): when the scan gives [n >= 1] per-message mappings whose
    [refs] have pairwise disjoint keys, the [refs] of the result hold exactly
    the entries of all [n] mappings, and the result has one [templates] entry
    that maps the token [u] to the source as it was handed to the scanner:
    the URL when the source is a string URL, the file object itself when the
    source is a file object, and the file object that [open] returned when
    the source is an [OpenFile] handle.  The other entries are those of the
    first mapping.  For [n = 1] the result is the single mapping with
    [templates] set. *)
Theorem grib_consolidation_is_union :
  msgs <> [] ->
  (forall i j ri rj, i <> j -> rs !! i = Some ri -> rs !! j = Some rj ->
     dict_keys ri ## dict_keys rj) ->
  exists res merged,
    run.1 = Ok res
    /\ calls run.2 = calls w1 ++ [Call_scan_grib src' it flt so]
    /\ dict_get res "templates" = Some (VDict [("u", src')])
    /\ (forall url, src = VStr url -> src' = VStr url)
    /\ (forall f, src = VIOBase f -> src' = VIOBase f)
    /\ (forall o, src = VOpenFile o ->
          exists f, handle_open env (calls w) o = Ok f /\ src' = VIOBase f)
    /\ dict_get res "refs" = Some (VDict merged)
    /\ (forall k v, dict_get merged k = Some v
                    <-> exists r, r ∈ rs /\ dict_get r k = Some v)
    /\ (forall k m0, k <> "refs" -> k <> "templates" -> head msgs = Some m0 ->
          dict_get res k = dict_get m0 k)
    /\ (forall m0, msgs = [m0] ->
          res = dict_set m0 "templates" (VDict [("u", src')])).
Proof.
  intros Hsome Hdisj.
  rewrite (open_with_kerchunk_grib_run _ _ _ _ _ _ _ _ _ _ _ _ _
             Hsource Hinline Hfilter Hstorage Hscan).
  assert (forall url, src = VStr url -> src' = VStr url) as Hurl.
  { intros url ->. rewrite normalize_run in Hsource. congruence. }
  assert (forall f, src = VIOBase f -> src' = VIOBase f) as Hfile.
  { intros f ->. rewrite normalize_run in Hsource. congruence. }
  assert (forall o, src = VOpenFile o ->
            exists f, handle_open env (calls w) o = Ok f /\ src' = VIOBase f)
    as Hopen.
  { intros o ->. rewrite normalize_run in Hsource.
    destruct (handle_open env (calls w) o) as [f|e]; [| discriminate].
    exists f. split; [done | congruence]. }
  destruct Hrefs as [|m0 r0 others rs' Hm0 Hothers]; [done |].
  inversion Hwf as [|? ? _ Hwf']; subst.
  assert (forall k v, dict_get (fold_left dict_update rs' r0) k = Some v
                      <-> exists r, r ∈ r0 :: rs' /\ dict_get r k = Some v)
    as Hunion.
  { intros k v. split; [by apply merged_origin |].
    intros (r & Hr & Hv). apply list_elem_of_lookup in Hr as [j Hj].
    apply (merged_last_writer _ _ _ j r); [done | done | done |].
    intros j' rj' Hlt Hj'. apply dict_get_None.
    assert (k ∈ dict_keys r) as Hk.
    { destruct (decide (k ∈ dict_keys r)) as [|Hn]; [done |].
      apply dict_get_None in Hn. congruence. }
    intros Hk'. apply (Hdisj j j' r rj' ltac:(lia) Hj Hj' k Hk Hk'). }
  destruct others as [|m1 others].
  - inversion Hothers; subst. rewrite consolidate_single. simpl.
    eexists _, r0. split; [reflexivity |]. split; [done |].
    split; [apply dict_get_set_eq |]. split; [done |].
    split; [done |]. split; [done |].
    split.
    { rewrite dict_get_set_ne by done. unfold refs_of in Hm0.
      destruct (dict_get m0 "refs") as [[]|]; congruence. }
    split; [apply Hunion |]. split.
    + intros k m Hk1 Hk2 [= <-]. by rewrite dict_get_set_ne.
    + by intros m [= <-].
  - rewrite (consolidate_several src' m0 (m1 :: others) r0 rs' _
               ltac:(done) Hm0 Hothers). simpl.
    eexists _, _. split; [reflexivity |]. split; [done |].
    split; [rewrite dict_get_set_ne by done; apply dict_get_set_eq |].
    split; [done |]. split; [done |]. split; [done |].
    split; [apply dict_get_set_eq |].
    split; [apply Hunion |]. split.
    + intros k m Hk1 Hk2 [= <-]. by rewrite !dict_get_set_ne.
    + intros m [=].
Qed.

End GribScan.

Lemma grib_merge_last_writer_wins_witness :
  let msgs := [message refs_t2m; message refs_u10; message refs_t2m_again] in
  let rs := [refs_t2m; refs_u10; refs_t2m_again] in
  let run := open_with_kerchunk (double msgs) (VStr "s3://bucket/a.grib2") grib
               (boxed (VInt 100)) default_netcdf3_max_chunk_size
               (boxed VNone) (boxed VNone) world0 in
  exists res merged,
    run.1 = Ok res
    /\ dict_get res "refs" = Some (VDict merged)
    /\ (forall k j rj v,
          rs !! j = Some rj -> dict_get rj k = Some v ->
          (forall j' rj', j < j' -> rs !! j' = Some rj' -> dict_get rj' k = None) ->
          dict_get merged k = Some v)
    /\ (forall k, (forall r, r ∈ rs -> dict_get r k = None) ->
          dict_get merged k = None)
    /\ (forall k m0, k <> "refs" -> k <> "templates" -> head msgs = Some m0 ->
          dict_get res k = dict_get m0 k).
Proof.
  apply (grib_merge_last_writer_wins
           (double [message refs_t2m; message refs_u10; message refs_t2m_again])
           world0 world0 (VStr "s3://bucket/a.grib2") (VStr "s3://bucket/a.grib2")
           (boxed (VInt 100)) default_netcdf3_max_chunk_size
           (boxed VNone) (boxed VNone) (VInt 100) VNone VNone
           [message refs_t2m; message refs_u10; message refs_t2m_again]
           [refs_t2m; refs_u10; refs_t2m_again]).
  - reflexivity.
  - reflexivity.
  - reflexivity.
  - reflexivity.
  - reflexivity.
  - repeat constructor.
  - repeat constructor; apply (bool_decide_unpack _); vm_compute; reflexivity.
  - simpl. lia.
Defined.

(** C1, as stated, fails: two messages map the key [t2m/0.0]; the consolidated
    [refs] give it the value of the later message, not that of the earlier. *)
Lemma grib_merge_later_message_overrides :
  let msgs := [message refs_t2m; message refs_t2m_again] in
  let run := open_with_kerchunk (double msgs) (VStr "s3://bucket/a.grib2") grib
               (boxed (VInt 100)) default_netcdf3_max_chunk_size
               (boxed VNone) (boxed VNone) world0 in
  exists res merged,
    run.1 = Ok res
    /\ dict_get res "refs" = Some (VDict merged)
    /\ dict_get refs_t2m "t2m/0.0"
       = Some (VList [VStr "{{u}}"; VInt 0; VInt 4096])
    /\ dict_get refs_t2m_again "t2m/0.0"
       = Some (VList [VStr "{{u}}"; VInt 12288; VInt 4096])
    /\ dict_get merged "t2m/0.0"
       = Some (VList [VStr "{{u}}"; VInt 12288; VInt 4096])
    /\ dict_get merged "t2m/0.0" <> dict_get refs_t2m "t2m/0.0".
Proof.
  eexists _, _. split; [reflexivity |]. split; [reflexivity |].
  split; [reflexivity |]. split; [reflexivity |]. split; [reflexivity |].
  vm_compute. discriminate.
Qed.

Lemma grib_consolidation_is_union_witness :
  let msgs := [message refs_t2m; message refs_u10; message refs_v10] in
  let rs := [refs_t2m; refs_u10; refs_v10] in
  let src := VStr "s3://bucket/a.grib2" in
  let run := open_with_kerchunk (double msgs) src grib
               (boxed (VInt 100)) default_netcdf3_max_chunk_size
               (boxed VNone) (boxed VNone) world0 in
  exists res merged,
    run.1 = Ok res
    /\ calls run.2 = calls world0 ++ [Call_scan_grib src (VInt 100) VNone VNone]
    /\ dict_get res "templates" = Some (VDict [("u", src)])
    /\ (forall url, src = VStr url -> src = VStr url)
    /\ (forall f, src = VIOBase f -> src = VIOBase f)
    /\ (forall o, src = VOpenFile o ->
          exists f, handle_open (double msgs) (calls world0) o = Ok f
                    /\ src = VIOBase f)
    /\ dict_get res "refs" = Some (VDict merged)
    /\ (forall k v, dict_get merged k = Some v
                    <-> exists r, r ∈ rs /\ dict_get r k = Some v)
    /\ (forall k m0, k <> "refs" -> k <> "templates" -> head msgs = Some m0 ->
          dict_get res k = dict_get m0 k)
    /\ (forall m0, msgs = [m0] ->
          res = dict_set m0 "templates" (VDict [("u", src)])).
Proof.
  apply (grib_consolidation_is_union
           (double [message refs_t2m; message refs_u10; message refs_v10])
           world0 world0 (VStr "s3://bucket/a.grib2") (VStr "s3://bucket/a.grib2")
           (boxed (VInt 100)) default_netcdf3_max_chunk_size
           (boxed VNone) (boxed VNone) (VInt 100) VNone VNone
           [message refs_t2m; message refs_u10; message refs_v10]
           [refs_t2m; refs_u10; refs_v10]).
  - reflexivity.
  - reflexivity.
  - reflexivity.
  - reflexivity.
  - reflexivity.
  - repeat constructor.
  - repeat constructor; apply (bool_decide_unpack _); vm_compute; reflexivity.
  - discriminate.
  - intros i j ri rj Hij Hi Hj.
    destruct i as [|[|[|i]]]; destruct j as [|[|[|j]]];
      simpl in Hi, Hj; try discriminate; try done;
      injection Hi as <-; injection Hj as <-;
      intros x; unfold dict_keys; simpl;
      rewrite !elem_of_cons, !elem_of_nil; intros Hx Hy;
      repeat match goal with
             | H : _ \/ _ |- _ => destruct H
             | H : False |- _ => destruct H
             end; subst; discriminate.
Defined.

(** C6, as stated, fails: when the source is an [OpenFile] handle, the
    [templates] entry of the consolidated result maps the token to the file
    object that [open] returned, not to a URL. *)
Lemma grib_templates_hold_file_object :
  let msgs := [message refs_t2m; message refs_u10; message refs_v10] in
  let run := open_with_kerchunk (double msgs)
               (VOpenFile (OpenFile "s3://bucket/a.grib2")) grib
               (boxed (VInt 100)) default_netcdf3_max_chunk_size
               (boxed VNone) (boxed VNone) world0 in
  exists res,
    run.1 = Ok res
    /\ dict_get res "templates"
       = Some (VDict [("u", VIOBase (FileObj "<file>" (Some "s3://bucket/a.grib2")))])
    /\ forall url, dict_get res "templates" <> Some (VDict [("u", VStr url)]).
Proof.
  eexists. split; [reflexivity |]. split; [reflexivity |].
  intros url. vm_compute. discriminate.
Qed.

(** ** [open_with_xarray] with a local copy *)

(** A string URL is refused when a local copy is asked for, whatever the
    collaborators would answer: nothing is returned and nothing is warned. *)
Lemma open_with_xarray_url_copy_refused env url load w :
  (open_with_xarray env (VStr url) netcdf4 load true None w).1
  = Err (ValueError copy_url_msg)
  /\ warnings (open_with_xarray env (VStr url) netcdf4 load true None w).2
     = warnings w
  /\ calls (open_with_xarray env (VStr url) netcdf4 load true None w).2
     = calls w.
Proof.
  destruct w as [h ws cs].
  unfold open_with_xarray. rewrite bind_run, or_new_dict_None_run.
  rewrite bind_run.
  rewrite (_set_engine_run netcdf4 _ _ _ _ [] (lookup_insert_eq _ _ _)).
  simpl. done.
Qed.

(** With a source that is not a string, a declared netcdf4 type, a local copy
    and no load: the source is copied to a temporary file, the dataset is
    opened from that file with the canonical engine, and the one warning of
    the call is the advisory about the local file. *)
Lemma open_with_xarray_copy_run env src w tmp target ds :
  (forall s, src <> VStr s) ->
  let c1 := Call_NamedTemporaryFile in
  let c2 := Call_open_local tmp "wb" in
  let c3 := Call_copy_btw_filesystems src target in
  let c4 := Call_xr_open_dataset (VStr tmp) [("engine", VStr "h5netcdf")] in
  NamedTemporaryFile env (calls w) = Ok tmp ->
  open_local env (calls w ++ [c1]) tmp "wb" = Ok target ->
  _copy_btw_filesystems env (calls w ++ [c1; c2]) src target = Ok tt ->
  xr_open_dataset env (calls w ++ [c1; c2; c3]) (VStr tmp)
    [("engine", VStr "h5netcdf")] = Ok ds ->
  let r := open_with_xarray env src netcdf4 false true None w in
  r.1 = Ok ds
  /\ warnings r.2 = warnings w ++ [local_copy_msg]
  /\ calls r.2 = calls w ++ [c1; c2; c3; c4].
Proof.
  intros Hsrc c1 c2 c3 c4 H1 H2 H3 H4 r. subst r c1 c2 c3 c4.
  destruct w as [h ws cs]. simpl in *.
  unfold open_with_xarray. rewrite bind_run, or_new_dict_None_run.
  rewrite bind_run.
  rewrite (_set_engine_run netcdf4 _ _ _ _ [] (lookup_insert_eq _ _ _)).
  simpl. rewrite bind_run.
  destruct src; try (exfalso; by eapply Hsrc);
    simpl; unfold_monad; simpl;
    rewrite H1; simpl; rewrite H2; simpl;
    rewrite <- ?app_assoc; simpl; rewrite H3; simpl;
    rewrite ?normalize_run; simpl;
    rewrite lookup_insert_eq; simpl;
    rewrite <- ?app_assoc; simpl; rewrite H4; simpl;
    rewrite <- ?app_assoc; done.
Qed.

(** C8: opening a declared netcdf4 URL end to end, that is with [open_url]
    (no cache) and then [open_with_xarray] on the handle obtained, with the
    default options, [copy_to_local] set and [load] unset, returns a dataset
    when the collaborators succeed, and emits exactly one local-file
    warning, the advisory that the data were copied to a local file and not
    loaded (it is the only warning of the call). *)
Theorem open_url_then_xarray_copy_warns_once env url secrets w handle tmp
    target ds :
  (forall s, handle <> VStr s) ->
  _get_opener env (calls w) url secrets [] = Ok handle ->
  NamedTemporaryFile env (calls w ++ [Call_get_opener url secrets []]) = Ok tmp ->
  open_local env
    (calls w ++ [Call_get_opener url secrets []; Call_NamedTemporaryFile])
    tmp "wb" = Ok target ->
  _copy_btw_filesystems env
    (calls w ++ [Call_get_opener url secrets []; Call_NamedTemporaryFile;
                 Call_open_local tmp "wb"])
    handle target = Ok tt ->
  xr_open_dataset env
    (calls w ++ [Call_get_opener url secrets []; Call_NamedTemporaryFile;
                 Call_open_local tmp "wb";
                 Call_copy_btw_filesystems handle target])
    (VStr tmp) [("engine", VStr "h5netcdf")] = Ok ds ->
  let r := (h ← open_url env url None secrets None;
            open_with_xarray env h netcdf4 false true None) w in
  r.1 = Ok ds
  /\ warnings r.2 = warnings w ++ [local_copy_msg]
  /\ calls r.2
     = calls w ++ [Call_get_opener url secrets []; Call_NamedTemporaryFile;
                   Call_open_local tmp "wb";
                   Call_copy_btw_filesystems handle target;
                   Call_xr_open_dataset (VStr tmp) [("engine", VStr "h5netcdf")]].
Proof.
  intros Hh H0 H1 H2 H3 H4 r. subst r.
  rewrite bind_run. unfold open_url, invoke. simpl. rewrite H0.
  destruct (open_with_xarray_copy_run env handle
              (World (heap w) (warnings w)
                     (calls w ++ [Call_get_opener url secrets []]))
              tmp target ds Hh) as (Hr & Hw & Hc); simpl;
    rewrite <- ?app_assoc; try done.
  rewrite Hr, Hw, Hc. simpl. by rewrite <- app_assoc.
Qed.

Lemma open_url_then_xarray_copy_warns_once_witness :
  let r := (h ← open_url (double []) "https://example.org/a.nc" None VNone None;
            open_with_xarray (double []) h netcdf4 false true None) world0 in
  r.1 = Ok "dataset"
  /\ warnings r.2 = warnings world0 ++ [local_copy_msg]
  /\ calls r.2
     = calls world0
       ++ [Call_get_opener "https://example.org/a.nc" VNone [];
           Call_NamedTemporaryFile;
           Call_open_local "/tmp/tmpa1b2c3" "wb";
           Call_copy_btw_filesystems
             (VOpenFile (OpenFile "https://example.org/a.nc")) "/tmp/tmpa1b2c3";
           Call_xr_open_dataset (VStr "/tmp/tmpa1b2c3")
             [("engine", VStr "h5netcdf")]].
Proof.
  apply (open_url_then_xarray_copy_warns_once (double [])
           "https://example.org/a.nc" VNone world0
           (VOpenFile (OpenFile "https://example.org/a.nc"))
           "/tmp/tmpa1b2c3" "/tmp/tmpa1b2c3" "dataset").
  - discriminate.
  - reflexivity.
  - reflexivity.
  - reflexivity.
  - reflexivity.
  - reflexivity.
Defined.

(** * Further properties of the module *)

(** ** [_set_engine], the remaining cases *)

Lemma py_eq_str_true e s : py_eq_str e (VStr s) = true -> e = VStr s.
Proof.
  destruct e; simpl; try discriminate.
  intros H. apply bool_decide_eq_true in H. by subst.
Qed.

Lemma canonical_engine_entry file_type ce :
  canonical_engine file_type = Some ce ->
  OPENER_MAP_get OPENER_MAP file_type = Some [("engine", ce)]
  /\ file_type ∈ [netcdf3; netcdf4; zarr].
Proof.
  destruct file_type; intros H; vm_compute in H; try discriminate;
    injection H as <-;
    (split; [reflexivity | by apply (bool_decide_unpack _); vm_compute]).
Qed.

(** X1: for the file type [unknown], [_set_engine] always succeeds and returns
    a copy holding exactly the caller's options, no engine being inserted or
    changed; it warns, once, exactly when the options name no engine. *)
Theorem set_engine_unknown l w d :
  heap w !! l = Some d ->
  exists l',
    (_set_engine unknown l w).1 = Ok l'
    /\ heap (_set_engine unknown l w).2 !! l' = Some d
    /\ warnings (_set_engine unknown l w).2
       = (if dict_contains d "engine" then warnings w
          else warnings w ++ [unknown_engine_msg]).
Proof.
  intros Hl. destruct w as [h ws cs]; simpl in Hl.
  rewrite (_set_engine_run _ _ _ _ _ _ Hl). simpl.
  exists (fresh (dom h)). by rewrite lookup_insert_eq.
Qed.

Lemma set_engine_unknown_witness :
  let w := world1 [("decode_times", VBool false)] in
  exists l',
    (_set_engine unknown 1%positive w).1 = Ok l'
    /\ heap (_set_engine unknown 1%positive w).2 !! l'
       = Some [("decode_times", VBool false)]
    /\ warnings (_set_engine unknown 1%positive w).2
       = (if dict_contains [("decode_times", VBool false)] "engine"
          then warnings w else warnings w ++ [unknown_engine_msg]).
Proof.
  apply (set_engine_unknown 1%positive (world1 [("decode_times", VBool false)])
           [("decode_times", VBool false)]).
  reflexivity.
Defined.

(** X2: for a file type with an entry in [OPENER_MAP] and options whose
    explicit engine is the canonical one, [_set_engine] succeeds, returns a
    copy holding exactly the caller's options, and emits exactly one warning,
    whose text shows that engine. *)
Theorem set_engine_redundant_engine file_type l w d ce :
  canonical_engine file_type = Some ce ->
  heap w !! l = Some d ->
  dict_get d "engine" = Some ce ->
  exists l' msg,
    (_set_engine file_type l w).1 = Ok l'
    /\ heap (_set_engine file_type l w).2 !! l' = Some d
    /\ warnings (_set_engine file_type l w).2 = warnings w ++ [msg]
    /\ occurs_in (py_str ce) msg.
Proof.
  intros Hce Hl He. destruct w as [h ws cs]; simpl in Hl.
  destruct (canonical_engine_entry _ _ Hce) as [Hmap Hft].
  destruct (canonical_engine_known _ Hft) as (engine & Hmap' & Hce').
  assert (ce = VStr engine) as -> by congruence.
  rewrite (_set_engine_run _ _ _ _ _ _ Hl).
  assert (file_type <> unknown) as Hu by (intros ->; set_solver).
  rewrite decide_False by done. rewrite Hmap, He. simpl.
  rewrite bool_decide_eq_true_2 by done.
  exists (fresh (dom h)), (warn_matching_msg file_type [("engine", VStr engine)]
                             (VStr engine)).
  simpl. rewrite lookup_insert_eq. repeat split; try done.
  unfold occurs_in, warn_matching_msg.
  exists (engine_message_base file_type [("engine", VStr engine)]
          +:+ "which is the same value you have passed via `xarray_open_kwargs`. "
          +:+ "If this input file is actually of type '"
          +:+ FileType_value file_type +:+ "', you can "
          +:+ "remove `{'engine': '").
  eexists. rewrite !append_assoc. reflexivity.
Qed.

Lemma set_engine_redundant_engine_witness :
  let d := [("engine", VStr "zarr"); ("consolidated", VBool true)] in
  exists l' msg,
    (_set_engine zarr 1%positive (world1 d)).1 = Ok l'
    /\ heap (_set_engine zarr 1%positive (world1 d)).2 !! l' = Some d
    /\ warnings (_set_engine zarr 1%positive (world1 d)).2
       = warnings (world1 d) ++ [msg]
    /\ occurs_in (py_str (VStr "zarr")) msg.
Proof.
  apply (set_engine_redundant_engine zarr 1%positive
           (world1 [("engine", VStr "zarr"); ("consolidated", VBool true)])
           [("engine", VStr "zarr"); ("consolidated", VBool true)] (VStr "zarr")).
  - reflexivity.
  - reflexivity.
  - reflexivity.
Defined.

(** X3: for the file types [grib] and [opendap], which have no entry in
    [OPENER_MAP], [_set_engine] raises [KeyError] on the file type whatever
    the options hold, with or without an explicit engine, and warns nothing. *)
Theorem set_engine_no_entry_keyerror file_type l w d :
  file_type ∈ [grib; opendap] ->
  heap w !! l = Some d ->
  (_set_engine file_type l w).1 = Err (KeyError (FileType_repr file_type))
  /\ warnings (_set_engine file_type l w).2 = warnings w.
Proof.
  intros Hft Hl. destruct w as [h ws cs]; simpl in Hl.
  rewrite (_set_engine_run _ _ _ _ _ _ Hl).
  rewrite !elem_of_cons, elem_of_nil in Hft.
  destruct Hft as [->|[->|[]]]; simpl; done.
Qed.

Lemma set_engine_no_entry_keyerror_witness :
  let w := world1 [("engine", VStr "cfgrib")] in
  (_set_engine grib 1%positive w).1 = Err (KeyError (FileType_repr grib))
  /\ warnings (_set_engine grib 1%positive w).2 = warnings w.
Proof.
  apply (set_engine_no_entry_keyerror grib 1%positive
           (world1 [("engine", VStr "cfgrib")]) [("engine", VStr "cfgrib")]).
  - by apply (bool_decide_unpack _); vm_compute.
  - reflexivity.
Defined.

(** X4: whenever [_set_engine] returns for a file type other than [unknown],
    the options it returns name the canonical engine of that type: resolved
    options never carry another engine. *)
Theorem set_engine_result_has_canonical_engine file_type l w d l' :
  file_type <> unknown ->
  heap w !! l = Some d ->
  (_set_engine file_type l w).1 = Ok l' ->
  exists d' ce,
    heap (_set_engine file_type l w).2 !! l' = Some d'
    /\ canonical_engine file_type = Some ce
    /\ dict_get d' "engine" = Some ce.
Proof.
  intros Hu Hl. destruct w as [h ws cs]; simpl in Hl.
  rewrite (_set_engine_run _ _ _ _ _ _ Hl). rewrite decide_False by done.
  unfold canonical_engine.
  destruct (OPENER_MAP_get OPENER_MAP file_type) as [c|] eqn:Hmap;
    [| simpl; discriminate].
  assert (exists engine, c = [("engine", VStr engine)]) as [engine ->].
  { destruct file_type; vm_compute in Hmap; try discriminate;
      injection Hmap as <-; eauto. }
  simpl. destruct (dict_get d "engine") as [e|] eqn:He.
  - destruct (py_eq_str e (VStr engine)) eqn:Heq; simpl; [| discriminate].
    intros [= <-]. apply py_eq_str_true in Heq as ->.
    rewrite lookup_insert_eq. eauto.
  - simpl. intros [= <-]. rewrite lookup_insert_eq.
    eexists _, _. split; [reflexivity |]. split; [reflexivity |].
    unfold dict_update. simpl. apply dict_get_set_eq.
Qed.

Lemma set_engine_result_has_canonical_engine_witness :
  let w := world1 [("chunks", VDict [])] in
  exists d' ce,
    heap (_set_engine netcdf3 1%positive w).2 !! 2%positive = Some d'
    /\ canonical_engine netcdf3 = Some ce
    /\ dict_get d' "engine" = Some ce.
Proof.
  apply (set_engine_result_has_canonical_engine netcdf3 1%positive
           (world1 [("chunks", VDict [])]) [("chunks", VDict [])] 2%positive).
  - discriminate.
  - reflexivity.
  - reflexivity.
Defined.

(** X5: [_set_engine] returns exactly in these cases: the file type is
    [unknown]; or the file type has an entry in [OPENER_MAP] and the options
    name no engine or name the canonical one.  In every other case it
    raises. *)
Theorem set_engine_succeeds_iff file_type l w d :
  heap w !! l = Some d ->
  is_Ok (_set_engine file_type l w).1 = true
  <-> file_type = unknown
      \/ exists ce, canonical_engine file_type = Some ce
                    /\ (dict_get d "engine" = None
                        \/ dict_get d "engine" = Some ce).
Proof.
  intros Hl. destruct w as [h ws cs]; simpl in Hl.
  rewrite (_set_engine_run _ _ _ _ _ _ Hl).
  destruct (decide (file_type = unknown)) as [->|Hu];
    [simpl; split; [by left | done] |].
  unfold canonical_engine.
  destruct (OPENER_MAP_get OPENER_MAP file_type) as [c|] eqn:Hmap; simpl.
  - assert (exists engine, c = [("engine", VStr engine)]) as [engine ->].
    { destruct file_type; vm_compute in Hmap; try discriminate;
        injection Hmap as <-; eauto. }
    simpl. destruct (dict_get d "engine") as [e|] eqn:He; simpl.
    + destruct (py_eq_str e (VStr engine)) eqn:Heq; simpl.
      * apply py_eq_str_true in Heq as ->. split; [| done].
        intros _. right. eauto.
      * split; [discriminate |].
        intros [?|(ce & [= <-] & [?|[= ->]])]; try done.
        simpl in Heq. by apply bool_decide_eq_false in Heq.
    + split; [| done]. intros _. right. eauto.
  - split; [discriminate |]. intros [?|(ce & ? & _)]; done.
Qed.

Lemma set_engine_succeeds_iff_witness :
  let d := [("engine", VStr "scipy")] in
  is_Ok (_set_engine netcdf4 1%positive (world1 d)).1 = true
  <-> netcdf4 = unknown
      \/ exists ce, canonical_engine netcdf4 = Some ce
                    /\ (dict_get d "engine" = None
                        \/ dict_get d "engine" = Some ce).
Proof.
  apply (set_engine_succeeds_iff netcdf4 1%positive
           (world1 [("engine", VStr "scipy")]) [("engine", VStr "scipy")]).
  reflexivity.
Defined.

(** ** [open_with_xarray], the remaining paths *)

Lemma _set_engine_frame file_type l w d :
  heap w !! l = Some d ->
  calls (_set_engine file_type l w).2 = calls w
  /\ forall l0, is_Some (heap w !! l0) ->
       heap (_set_engine file_type l w).2 !! l0 = heap w !! l0.
Proof.
  intros Hl. destruct w as [h ws cs]; simpl in Hl.
  rewrite (_set_engine_run _ _ _ _ _ _ Hl).
  assert (forall d' l0, is_Some (h !! l0) ->
            <[fresh (dom h) := d']> h !! l0 = h !! l0) as Hframe.
  { intros d' l0 [d0 Hd0]. apply lookup_insert_ne.
    symmetry. by eapply fresh_loc_ne. }
  repeat match goal with
         | |- context [if ?b then _ else _] => destruct b
         | |- context [match ?o with Some _ => _ | None => _ end] => destruct o
         end; simpl; (split; [done | apply Hframe]).
Qed.

Lemma or_new_dict_run kwargs h ws cs :
  (forall l, kwargs = Some l -> is_Some (h !! l)) ->
  exists l2 h2 d2,
    or_new_dict kwargs (World h ws cs) = (Ok l2, World h2 ws cs)
    /\ h2 !! l2 = Some d2
    /\ (forall l0, is_Some (h !! l0) -> h2 !! l0 = h !! l0)
    /\ (forall l, kwargs = Some l -> h !! l = Some d2)
    /\ (kwargs = None -> d2 = []).
Proof.
  intros Hk.
  assert (forall l0, is_Some (h !! l0) ->
            <[fresh (dom h) := []]> h !! l0 = h !! l0) as Hframe.
  { intros l0 [d0 Hd0]. apply lookup_insert_ne.
    symmetry. by eapply fresh_loc_ne. }
  destruct kwargs as [l|].
  - destruct (Hk l eq_refl) as [d Hd]. unfold or_new_dict.
    rewrite bind_run. unfold deref. simpl. rewrite Hd.
    destruct d as [|kv d].
    + exists (fresh (dom h)), (<[fresh (dom h) := []]> h), [].
      split; [reflexivity |]. split; [apply lookup_insert_eq |].
      split; [done |]. split; [| done]. by intros ? [= <-].
    + exists l, h, (kv :: d). split; [reflexivity |]. split; [done |].
      split; [done |]. split; [| done]. by intros ? [= <-].
  - exists (fresh (dom h)), (<[fresh (dom h) := []]> h), [].
    split; [reflexivity |]. split; [apply lookup_insert_eq |]. done.
Qed.

(** X6: options are resolved before anything else is done: when
    [_set_engine] raises on the caller's options, [open_with_xarray] raises
    the same error, for every source and whatever [load] and [copy_to_local]
    say, and no collaborator has been called. *)
Theorem open_with_xarray_fails_fast env src file_type load copy_to_local l w d e :
  heap w !! l = Some d ->
  d <> [] ->
  (_set_engine file_type l w).1 = Err e ->
  (open_with_xarray env src file_type load copy_to_local (Some l) w).1 = Err e
  /\ calls (open_with_xarray env src file_type load copy_to_local (Some l) w).2
     = calls w.
Proof.
  intros Hl Hne He. unfold open_with_xarray. rewrite bind_run.
  unfold or_new_dict. rewrite bind_run. unfold deref. rewrite Hl.
  destruct d as [|kv d]; [done |]. simpl. rewrite bind_run.
  destruct (_set_engine_frame file_type l w _ Hl) as [Hc _].
  destruct (_set_engine file_type l w) as [[l'|e'] w']; simpl in *;
    [discriminate |]. split; congruence.
Qed.

Lemma open_with_xarray_fails_fast_witness :
  let w := world1 [("engine", VStr "netcdf4")] in
  let r := open_with_xarray (double []) (VStr "https://example.org/a.nc")
             netcdf3 true false (Some 1%positive) w in
  r.1 = Err (ValueError
               (error_mismatched_msg netcdf3 [("engine", VStr "scipy")]
                  (VStr "netcdf4")))
  /\ calls r.2 = calls w.
Proof.
  apply (open_with_xarray_fails_fast (double [])
           (VStr "https://example.org/a.nc") netcdf3 true false 1%positive
           (world1 [("engine", VStr "netcdf4")]) [("engine", VStr "netcdf4")]).
  - reflexivity.
  - discriminate.
  - reflexivity.
Defined.

(** X7: a source declared [grib] or [opendap] cannot be opened by
    [open_with_xarray]: for every source, every [load] and [copy_to_local]
    and all options, the call raises [KeyError] on the file type, without
    calling any collaborator and without warning. *)
Theorem open_with_xarray_no_entry_keyerror env src file_type load copy_to_local
    kwargs w :
  file_type ∈ [grib; opendap] ->
  (forall l, kwargs = Some l -> is_Some (heap w !! l)) ->
  let r := open_with_xarray env src file_type load copy_to_local kwargs w in
  r.1 = Err (KeyError (FileType_repr file_type))
  /\ calls r.2 = calls w
  /\ warnings r.2 = warnings w.
Proof.
  intros Hft Hk r. subst r. destruct w as [h ws cs]. simpl in Hk.
  destruct (or_new_dict_run kwargs h ws cs Hk) as (l2 & h2 & d2 & Hrun & Hl2 & _).
  unfold open_with_xarray. rewrite bind_run, Hrun. rewrite bind_run.
  rewrite (_set_engine_run _ _ _ _ _ _ Hl2).
  rewrite !elem_of_cons, elem_of_nil in Hft.
  destruct Hft as [->|[->|[]]]; simpl; done.
Qed.

Lemma open_with_xarray_no_entry_keyerror_witness :
  let r := open_with_xarray (double [])
             (VIOBase (FileObj "<file>" (Some "/data/a.grib2")))
             grib true true None world0 in
  r.1 = Err (KeyError (FileType_repr grib))
  /\ calls r.2 = calls world0
  /\ warnings r.2 = warnings world0.
Proof.
  apply (open_with_xarray_no_entry_keyerror (double [])
           (VIOBase (FileObj "<file>" (Some "/data/a.grib2")))
           grib true true None world0).
  - by apply (bool_decide_unpack _); vm_compute.
  - intros l. discriminate.
Defined.

(** The start of a call with default options for a file type that has a
    canonical engine: the options become the one entry for that engine. *)
Lemma open_with_xarray_start file_type ce h ws cs :
  canonical_engine file_type = Some ce ->
  exists l2 h2,
    (kw ← or_new_dict None; _set_engine file_type kw) (World h ws cs)
    = (Ok l2, World h2 ws cs)
    /\ h2 !! l2 = Some [("engine", ce)].
Proof.
  intros Hce. destruct (canonical_engine_entry _ _ Hce) as [Hmap Hft].
  assert (file_type <> unknown) as Hu by (intros ->; set_solver).
  rewrite bind_run, or_new_dict_None_run.
  rewrite (_set_engine_run _ _ _ _ _ [] (lookup_insert_eq _ _ _)).
  rewrite decide_False by done. rewrite Hmap. simpl.
  eexists _, _. split; [reflexivity |]. apply lookup_insert_eq.
Qed.

Lemma open_with_xarray_assoc env src file_type load copy_to_local kwargs w :
  open_with_xarray env src file_type load copy_to_local kwargs w
  = match (kw ← or_new_dict kwargs; _set_engine file_type kw) w with
    | (Ok kw, w') =>
        (url_or_file_obj ←
           (if copy_to_local then
              (if FileType_in file_type [FileType_or zarr opendap]
               then raise (ValueError (copy_target_msg file_type)) else mret tt);;
              match src with
              | VStr _ => raise (ValueError copy_url_msg)
              | _ =>
                  tmp_name ← invoke Call_NamedTemporaryFile
                                    (fun h => NamedTemporaryFile env h);
                  target_opener ← invoke (Call_open_local tmp_name "wb")
                                         (fun h => open_local env h tmp_name "wb");
                  invoke (Call_copy_btw_filesystems src target_opener)
                         (fun h => _copy_btw_filesystems env h src target_opener);;
                  mret (VStr tmp_name)
              end
            else mret src);
         url_or_file_obj ← normalize env url_or_file_obj file_type;
         kwargs ← deref kw;
         ds ← invoke (Call_xr_open_dataset url_or_file_obj kwargs)
                     (fun h => xr_open_dataset env h url_or_file_obj kwargs);
         (if load then invoke (Call_ds_load ds) (fun h => ds_load env h ds)
          else mret tt);;
         (if copy_to_local && negb load then warn local_copy_msg else mret tt);;
         mret ds) w'
    | (Err e, w') => (Err e, w')
    end.
Proof.
  unfold open_with_xarray. rewrite !bind_run.
  destruct (or_new_dict kwargs w) as [[l|e] w1]; [| reflexivity].
  rewrite bind_run. by destruct (_set_engine file_type l w1) as [[?|?] ?].
Qed.

(** X8: a string URL of a file type with a canonical engine, opened with the
    default options, without copy and without load: the one collaborator
    called is [xr.open_dataset], on the URL itself and with exactly the
    canonical engine as options; what it answers, dataset or error, is the
    result; nothing is warned. *)
Theorem open_with_xarray_url_lazy env url file_type ce w :
  canonical_engine file_type = Some ce ->
  let r := open_with_xarray env (VStr url) file_type false false None w in
  r.1 = xr_open_dataset env (calls w) (VStr url) [("engine", ce)]
  /\ calls r.2 = calls w ++ [Call_xr_open_dataset (VStr url) [("engine", ce)]]
  /\ warnings r.2 = warnings w.
Proof.
  intros Hce r. subst r. destruct w as [h ws cs].
  rewrite open_with_xarray_assoc.
  destruct (open_with_xarray_start _ _ h ws cs Hce) as (l2 & h2 & Hrun & Hl2).
  rewrite Hrun. simpl. unfold_monad. simpl. rewrite Hl2. simpl.
  by destruct (xr_open_dataset env cs (VStr url) [("engine", ce)]).
Qed.

Lemma open_with_xarray_url_lazy_witness :
  let r := open_with_xarray (double []) (VStr "https://example.org/a.nc")
             netcdf4 false false None world0 in
  r.1 = xr_open_dataset (double []) (calls world0)
          (VStr "https://example.org/a.nc") [("engine", VStr "h5netcdf")]
  /\ calls r.2
     = calls world0 ++ [Call_xr_open_dataset (VStr "https://example.org/a.nc")
                          [("engine", VStr "h5netcdf")]]
  /\ warnings r.2 = warnings world0.
Proof.
  apply (open_with_xarray_url_lazy (double []) "https://example.org/a.nc"
           netcdf4 (VStr "h5netcdf") world0).
  reflexivity.
Defined.

(** X9: for a string URL of a file type that has an [OPENER_MAP] entry, opened
    with the default options ([xarray_open_kwargs] absent), without copy and
    with [load] set, when [xr.open_dataset] returns a dataset: [ds.load] is
    the call that follows [xr.open_dataset], the dataset is returned when the
    load succeeds and the error of the load is raised otherwise; nothing is
    warned. *)
Theorem open_with_xarray_url_eager env url file_type ce w ds :
  canonical_engine file_type = Some ce ->
  xr_open_dataset env (calls w) (VStr url) [("engine", ce)] = Ok ds ->
  let c := Call_xr_open_dataset (VStr url) [("engine", ce)] in
  let r := open_with_xarray env (VStr url) file_type true false None w in
  r.1 = match ds_load env (calls w ++ [c]) ds with
        | Ok _ => Ok ds
        | Err e => Err e
        end
  /\ calls r.2 = calls w ++ [c; Call_ds_load ds]
  /\ warnings r.2 = warnings w.
Proof.
  intros Hce Hds c r. subst r c. destruct w as [h ws cs]. simpl in Hds.
  rewrite open_with_xarray_assoc.
  destruct (open_with_xarray_start _ _ h ws cs Hce) as (l2 & h2 & Hrun & Hl2).
  rewrite Hrun. simpl. unfold_monad. simpl. rewrite Hl2. simpl.
  rewrite Hds. simpl. rewrite <- app_assoc. simpl.
  by destruct (ds_load env _ ds).
Qed.

Lemma open_with_xarray_url_eager_witness :
  let c := Call_xr_open_dataset (VStr "https://example.org/a.nc")
             [("engine", VStr "scipy")] in
  let r := open_with_xarray (double []) (VStr "https://example.org/a.nc")
             netcdf3 true false None world0 in
  r.1 = match ds_load (double []) (calls world0 ++ [c]) "dataset" with
        | Ok _ => Ok "dataset"
        | Err e => Err e
        end
  /\ calls r.2 = calls world0 ++ [c; Call_ds_load "dataset"]
  /\ warnings r.2 = warnings world0.
Proof.
  apply (open_with_xarray_url_eager (double []) "https://example.org/a.nc"
           netcdf3 (VStr "scipy") world0 "dataset").
  - reflexivity.
  - reflexivity.
Defined.

(** X10: for a source that is not a string, declared netcdf3 or netcdf4,
    opened with the default options ([xarray_open_kwargs] absent) and with
    [copy_to_local] and [load] both set, when the temporary file, the copy,
    [xr.open_dataset] and [ds.load] all succeed: the source is copied, the
    dataset is opened from the temporary file with the canonical engine and
    loaded, and no warning is emitted, the advisory about the local file
    included. *)
Theorem open_with_xarray_copy_and_load_silent env src file_type ce w tmp target ds :
  file_type ∈ [netcdf3; netcdf4] ->
  canonical_engine file_type = Some ce ->
  (forall s, src <> VStr s) ->
  NamedTemporaryFile env (calls w) = Ok tmp ->
  open_local env (calls w ++ [Call_NamedTemporaryFile]) tmp "wb" = Ok target ->
  _copy_btw_filesystems env
    (calls w ++ [Call_NamedTemporaryFile; Call_open_local tmp "wb"])
    src target = Ok tt ->
  xr_open_dataset env
    (calls w ++ [Call_NamedTemporaryFile; Call_open_local tmp "wb";
                 Call_copy_btw_filesystems src target])
    (VStr tmp) [("engine", ce)] = Ok ds ->
  ds_load env
    (calls w ++ [Call_NamedTemporaryFile; Call_open_local tmp "wb";
                 Call_copy_btw_filesystems src target;
                 Call_xr_open_dataset (VStr tmp) [("engine", ce)]])
    ds = Ok tt ->
  let r := open_with_xarray env src file_type true true None w in
  r.1 = Ok ds
  /\ warnings r.2 = warnings w
  /\ calls r.2
     = calls w ++ [Call_NamedTemporaryFile; Call_open_local tmp "wb";
                   Call_copy_btw_filesystems src target;
                   Call_xr_open_dataset (VStr tmp) [("engine", ce)];
                   Call_ds_load ds].
Proof.
  intros Hft Hce Hsrc H1 H2 H3 H4 H5 r. subst r.
  destruct w as [h ws cs]. simpl in *.
  rewrite open_with_xarray_assoc.
  destruct (open_with_xarray_start _ _ h ws cs Hce) as (l2 & h2 & Hrun & Hl2).
  rewrite Hrun.
  assert (FileType_in file_type [FileType_or zarr opendap] = false) as Hin.
  { rewrite !elem_of_cons, elem_of_nil in Hft.
    by destruct Hft as [->|[->|[]]]. }
  rewrite Hin.
  destruct src; try (exfalso; by eapply Hsrc);
    simpl; unfold_monad; simpl;
    rewrite H1; simpl; rewrite H2; simpl;
    rewrite <- ?app_assoc; simpl; rewrite H3; simpl;
    rewrite ?normalize_run; simpl;
    rewrite Hl2; simpl;
    rewrite <- ?app_assoc; simpl; rewrite H4; simpl;
    rewrite <- ?app_assoc; simpl; rewrite H5; simpl;
    rewrite <- ?app_assoc; done.
Qed.

Lemma open_with_xarray_copy_and_load_silent_witness :
  let src := VIOBase (FileObj "<file>" (Some "/data/a.nc")) in
  let r := open_with_xarray (double []) src netcdf3 true true None world0 in
  r.1 = Ok "dataset"
  /\ warnings r.2 = warnings world0
  /\ calls r.2
     = calls world0
       ++ [Call_NamedTemporaryFile; Call_open_local "/tmp/tmpa1b2c3" "wb";
           Call_copy_btw_filesystems src "/tmp/tmpa1b2c3";
           Call_xr_open_dataset (VStr "/tmp/tmpa1b2c3")
             [("engine", VStr "scipy")];
           Call_ds_load "dataset"].
Proof.
  apply (open_with_xarray_copy_and_load_silent (double [])
           (VIOBase (FileObj "<file>" (Some "/data/a.nc"))) netcdf3
           (VStr "scipy") world0 "/tmp/tmpa1b2c3" "/tmp/tmpa1b2c3" "dataset").
  - by apply (bool_decide_unpack _); vm_compute.
  - reflexivity.
  - discriminate.
  - reflexivity.
  - reflexivity.
  - reflexivity.
  - reflexivity.
  - reflexivity.
Defined.

(** X11: with the default options ([xarray_open_kwargs] absent) and without
    a local copy, an [FSStore] source declared as unknown, netcdf3 or netcdf4
    is refused with the [ValueError] of the source check, whatever [load]
    says, and no collaborator is called. *)
Theorem open_with_xarray_fsstore_refused env s file_type load w :
  file_type ∈ [unknown; netcdf3; netcdf4] ->
  let r := open_with_xarray env (VFSStore s) file_type load false None w in
  r.1 = Err (ValueError
               ("FSStore object can only be opened as FileType.zarr; got "
                +:+ FileType_str file_type))
  /\ calls r.2 = calls w.
Proof.
  intros Hft r. subst r. destruct w as [h ws cs].
  unfold open_with_xarray. rewrite bind_run, or_new_dict_None_run.
  rewrite bind_run.
  rewrite (_set_engine_run _ _ _ _ _ [] (lookup_insert_eq _ _ _)).
  rewrite !elem_of_cons, elem_of_nil in Hft.
  destruct Hft as [->|[->|[->|[]]]]; simpl; done.
Qed.

Lemma open_with_xarray_fsstore_refused_witness :
  let r := open_with_xarray (double []) (VFSStore (FSStore "<FSStore>" "b/s"))
             netcdf4 true false None world0 in
  r.1 = Err (ValueError
               ("FSStore object can only be opened as FileType.zarr; got "
                +:+ FileType_str netcdf4))
  /\ calls r.2 = calls world0.
Proof.
  apply (open_with_xarray_fsstore_refused (double [])
           (FSStore "<FSStore>" "b/s") netcdf4 true world0).
  by apply (bool_decide_unpack _); vm_compute.
Defined.

(** X12: for a source that is not a string, declared netcdf3 or netcdf4,
    opened with the default options ([xarray_open_kwargs] absent) and with
    [copy_to_local] set, whatever [load] says: when the temporary file is
    created and opened but copying the bytes into it fails, the error is
    raised as it is, [xr.open_dataset] is never called and nothing is
    warned. *)
Theorem open_with_xarray_copy_failure env src file_type load w tmp target e :
  file_type ∈ [netcdf3; netcdf4] ->
  (forall s, src <> VStr s) ->
  NamedTemporaryFile env (calls w) = Ok tmp ->
  open_local env (calls w ++ [Call_NamedTemporaryFile]) tmp "wb" = Ok target ->
  _copy_btw_filesystems env
    (calls w ++ [Call_NamedTemporaryFile; Call_open_local tmp "wb"])
    src target = Err e ->
  let r := open_with_xarray env src file_type load true None w in
  r.1 = Err e
  /\ calls r.2 = calls w ++ [Call_NamedTemporaryFile; Call_open_local tmp "wb";
                             Call_copy_btw_filesystems src target]
  /\ warnings r.2 = warnings w.
Proof.
  intros Hft Hsrc H1 H2 H3 r. subst r.
  destruct w as [h ws cs]. simpl in *.
  destruct (canonical_engine_known file_type) as (engine & _ & Hce).
  { rewrite !elem_of_cons in *. tauto. }
  rewrite open_with_xarray_assoc.
  destruct (open_with_xarray_start _ _ h ws cs Hce) as (l2 & h2 & Hrun & Hl2).
  rewrite Hrun.
  assert (FileType_in file_type [FileType_or zarr opendap] = false) as Hin.
  { rewrite !elem_of_cons, elem_of_nil in Hft.
    by destruct Hft as [->|[->|[]]]. }
  rewrite Hin.
  destruct src; try (exfalso; by eapply Hsrc);
    simpl; unfold_monad; simpl;
    rewrite H1; simpl; rewrite H2; simpl;
    rewrite <- ?app_assoc; simpl; rewrite H3; simpl;
    rewrite <- ?app_assoc; done.
Qed.

Lemma open_with_xarray_copy_failure_witness :
  let env := double_copy_fails (ExternalError "disk full") in
  let src := VIOBase (FileObj "<file>" (Some "/data/a.nc")) in
  let r := open_with_xarray env src netcdf4 false true None world0 in
  r.1 = Err (ExternalError "disk full")
  /\ calls r.2
     = calls world0 ++ [Call_NamedTemporaryFile;
                        Call_open_local "/tmp/tmpa1b2c3" "wb";
                        Call_copy_btw_filesystems src "/tmp/tmpa1b2c3"]
  /\ warnings r.2 = warnings world0.
Proof.
  apply (open_with_xarray_copy_failure
           (double_copy_fails (ExternalError "disk full"))
           (VIOBase (FileObj "<file>" (Some "/data/a.nc"))) netcdf4 false
           world0 "/tmp/tmpa1b2c3" "/tmp/tmpa1b2c3" (ExternalError "disk full")).
  - by apply (bool_decide_unpack _); vm_compute.
  - discriminate.
  - reflexivity.
  - reflexivity.
  - reflexivity.
Defined.

(** X13: for an [OpenFile] handle of a file type that has an [OPENER_MAP]
    entry, opened with the default options ([xarray_open_kwargs] absent),
    without copy and without load: the handle is opened first, and
    [xr.open_dataset] receives the file object that the handle's [open]
    returned, not the handle; when [open] raises, that error is the result
    and [xr.open_dataset] is not called. *)
Theorem open_with_xarray_openfile_opened_first env o file_type ce w :
  canonical_engine file_type = Some ce ->
  let r := open_with_xarray env (VOpenFile o) file_type false false None w in
  match handle_open env (calls w) o with
  | Ok f =>
      r.1 = xr_open_dataset env (calls w ++ [Call_handle_open o]) (VIOBase f)
              [("engine", ce)]
      /\ calls r.2
         = calls w ++ [Call_handle_open o;
                       Call_xr_open_dataset (VIOBase f) [("engine", ce)]]
  | Err e => r.1 = Err e /\ calls r.2 = calls w ++ [Call_handle_open o]
  end.
Proof.
  intros Hce r. subst r. destruct w as [h ws cs].
  rewrite open_with_xarray_assoc.
  destruct (open_with_xarray_start _ _ h ws cs Hce) as (l2 & h2 & Hrun & Hl2).
  rewrite Hrun. repeat (progress (unfold_monad; simpl)).
  destruct (handle_open env cs o) as [f|e]; simpl; [| done].
  rewrite Hl2. simpl. rewrite <- app_assoc. simpl.
  by destruct (xr_open_dataset env _ (VIOBase f) [("engine", ce)]).
Qed.

Lemma open_with_xarray_openfile_opened_first_witness :
  let o := OpenFile "s3://bucket/a.nc" in
  let r := open_with_xarray (double []) (VOpenFile o) netcdf4 false false None
             world0 in
  match handle_open (double []) (calls world0) o with
  | Ok f =>
      r.1 = xr_open_dataset (double []) (calls world0 ++ [Call_handle_open o])
              (VIOBase f) [("engine", VStr "h5netcdf")]
      /\ calls r.2
         = calls world0
           ++ [Call_handle_open o;
               Call_xr_open_dataset (VIOBase f) [("engine", VStr "h5netcdf")]]
  | Err e => r.1 = Err e /\ calls r.2 = calls world0 ++ [Call_handle_open o]
  end.
Proof.
  apply (open_with_xarray_openfile_opened_first (double [])
           (OpenFile "s3://bucket/a.nc") netcdf4 (VStr "h5netcdf") world0).
  reflexivity.
Defined.

(** X14: for a string URL with the file type [unknown], opened without copy
    and without load and with non-empty options: the options that the caller
    gave are those [xr.open_dataset] receives, unchanged and with no engine
    added; the auto-detect warning is emitted exactly when they name no
    engine. *)
Theorem open_with_xarray_unknown_passes_options env url l w d :
  heap w !! l = Some d ->
  d <> [] ->
  let r := open_with_xarray env (VStr url) unknown false false (Some l) w in
  r.1 = xr_open_dataset env (calls w) (VStr url) d
  /\ calls r.2 = calls w ++ [Call_xr_open_dataset (VStr url) d]
  /\ warnings r.2 = (if dict_contains d "engine" then warnings w
                     else warnings w ++ [unknown_engine_msg]).
Proof.
  intros Hl Hne r. subst r. destruct w as [h ws cs]. simpl in Hl.
  rewrite open_with_xarray_assoc. rewrite bind_run.
  assert (or_new_dict (Some l) (World h ws cs) = (Ok l, World h ws cs)) as ->.
  { unfold or_new_dict. rewrite bind_run. unfold deref. simpl. rewrite Hl.
    by destruct d. }
  rewrite (_set_engine_run _ _ _ _ _ _ Hl). simpl.
  unfold_monad. simpl. rewrite lookup_insert_eq. simpl.
  by destruct (xr_open_dataset env cs (VStr url) d).
Qed.

Lemma open_with_xarray_unknown_passes_options_witness :
  let d := [("engine", VStr "cfgrib"); ("decode_times", VBool false)] in
  let r := open_with_xarray (double []) (VStr "/data/a.grib2") unknown false
             false (Some 1%positive) (world1 d) in
  r.1 = xr_open_dataset (double []) (calls (world1 d)) (VStr "/data/a.grib2") d
  /\ calls r.2
     = calls (world1 d) ++ [Call_xr_open_dataset (VStr "/data/a.grib2") d]
  /\ warnings r.2 = (if dict_contains d "engine" then warnings (world1 d)
                     else warnings (world1 d) ++ [unknown_engine_msg]).
Proof.
  apply (open_with_xarray_unknown_passes_options (double []) "/data/a.grib2"
           1%positive
           (world1 [("engine", VStr "cfgrib"); ("decode_times", VBool false)])
           [("engine", VStr "cfgrib"); ("decode_times", VBool false)]).
  - reflexivity.
  - discriminate.
Defined.

(** ** What the functions leave untouched *)

Lemma keeps_heap_ret {A} (a : A) : keeps_heap (mret a).
Proof. by intros w. Qed.

Lemma keeps_heap_raise {A} (e : exn) : keeps_heap (raise (A := A) e).
Proof. by intros w. Qed.

Lemma keeps_heap_warn msg : keeps_heap (warn msg).
Proof. by intros w. Qed.

Lemma keeps_heap_invoke {A} c (r : list call -> result A) :
  keeps_heap (invoke c r).
Proof. by intros w. Qed.

Lemma keeps_heap_deref l : keeps_heap (deref l).
Proof. intros w. unfold deref. by destruct (heap w !! l). Qed.

Lemma keeps_heap_bind {A B} (m : M A) (f : A -> M B) :
  keeps_heap m -> (forall a, keeps_heap (f a)) -> keeps_heap (m ≫= f).
Proof.
  intros Hm Hf w. rewrite bind_run. specialize (Hm w).
  destruct (m w) as [[a|e] w']; simpl in *.
  - rewrite Hf. done.
  - done.
Qed.

Lemma keeps_heap_normalize env src file_type :
  keeps_heap (normalize env src file_type).
Proof.
  intros w. rewrite normalize_run.
  destruct src; try done.
  - by destruct (decide (file_type = zarr)).
  - by destruct (handle_open env (calls w) o).
Qed.

Ltac keeps_heap_tac :=
  repeat first
    [ apply keeps_heap_ret | apply keeps_heap_raise | apply keeps_heap_warn
    | apply keeps_heap_invoke | apply keeps_heap_deref
    | apply keeps_heap_normalize
    | apply keeps_heap_bind; [| intros ?]
    | match goal with
      | |- keeps_heap (if ?b then _ else _) => destruct b
      | |- keeps_heap (match ?x with _ => _ end) => destruct x
      end ].

(** X16: [open_with_xarray] never changes a dict object that existed before
    the call, the caller's options included: whatever the source, the file
    type, the flags and the answers of the collaborators, and whether the call
    returns or raises, each such object holds afterwards what it held
    before. *)
Theorem open_with_xarray_preserves_store env src file_type load copy_to_local
    kwargs w l0 :
  (forall l, kwargs = Some l -> is_Some (heap w !! l)) ->
  is_Some (heap w !! l0) ->
  heap (open_with_xarray env src file_type load copy_to_local kwargs w).2 !! l0
  = heap w !! l0.
Proof.
  intros Hk Hl0. destruct w as [h ws cs]. simpl in *.
  destruct (or_new_dict_run kwargs h ws cs Hk)
    as (l2 & h2 & d2 & Hrun & Hl2 & Hframe & _).
  rewrite open_with_xarray_assoc, bind_run, Hrun.
  destruct (_set_engine_frame file_type l2 (World h2 ws cs) d2 Hl2)
    as [_ Hframe2].
  specialize (Hframe2 l0). simpl in Hframe2.
  rewrite Hframe in Hframe2 by done.
  destruct (_set_engine file_type l2 (World h2 ws cs)) as [[l3|e] w3];
    simpl in *; [| by auto].
  match goal with
  | |- heap (?m w3).2 !! _ = _ => assert (keeps_heap m) as Hkeep
  end.
  { keeps_heap_tac. }
  rewrite Hkeep. auto.
Qed.

Lemma open_with_xarray_preserves_store_witness :
  let d := [("engine", VStr "h5netcdf"); ("chunks", VDict [])] in
  heap (open_with_xarray (double []) (VOpenFile (OpenFile "s3://b/a.nc"))
          netcdf4 false true (Some 1%positive) (world1 d)).2 !! 1%positive
  = heap (world1 d) !! 1%positive.
Proof.
  apply (open_with_xarray_preserves_store (double [])
           (VOpenFile (OpenFile "s3://b/a.nc")) netcdf4 false true
           (Some 1%positive)
           (world1 [("engine", VStr "h5netcdf"); ("chunks", VDict [])])
           1%positive).
  - intros l [= <-]. by eexists.
  - by eexists.
Defined.

(** ** [open_with_kerchunk], the scanners *)

(** X17: for netcdf4, once the source check has passed, the source has a
    [path] and [inline_threshold] and [storage_options] can be subscripted,
    exactly one scanner is called, the HDF5 one, with the source, its path and
    the first items of the two options; what it answers, mapping or error, is
    the result as it is (no [templates] entry is added), and
    [netcdf3_max_chunk_size] and [grib_filters] are not looked at. *)
Theorem open_with_kerchunk_netcdf4_dispatch env src inline_threshold mc
    storage_options grib_filters w src' w1 path it so :
  normalize env src netcdf4 w = (Ok src', w1) ->
  getattr_path src' w1 = (Ok path, w1) ->
  subscript0 inline_threshold = Ok it ->
  subscript0 storage_options = Ok so ->
  let r := open_with_kerchunk env src netcdf4 inline_threshold mc
             storage_options grib_filters w in
  r.1 = SingleHdf5ToZarr_translate env (calls w1) src' path it so
  /\ calls r.2 = calls w1 ++ [Call_SingleHdf5ToZarr src' path it so].
Proof.
  intros Hn Hp Hit Hso r. subst r. unfold open_with_kerchunk.
  rewrite bind_run, Hn. simpl. rewrite bind_run, Hp.
  unfold getitem0, lift. rewrite !bind_run, Hit. rewrite !bind_run, Hso.
  done.
Qed.

Lemma open_with_kerchunk_netcdf4_dispatch_witness :
  let src := VIOBase (FileObj "<file>" (Some "bucket/a.nc")) in
  let r := open_with_kerchunk (double []) src netcdf4 (boxed (VInt 100))
             VNone (boxed (VDict [])) VNone world0 in
  r.1 = SingleHdf5ToZarr_translate (double []) (calls world0) src
          (VStr "bucket/a.nc") (VInt 100) (VDict [])
  /\ calls r.2
     = calls world0 ++ [Call_SingleHdf5ToZarr src (VStr "bucket/a.nc")
                          (VInt 100) (VDict [])].
Proof.
  apply (open_with_kerchunk_netcdf4_dispatch (double [])
           (VIOBase (FileObj "<file>" (Some "bucket/a.nc")))
           (boxed (VInt 100)) VNone (boxed (VDict [])) VNone world0
           (VIOBase (FileObj "<file>" (Some "bucket/a.nc"))) world0
           (VStr "bucket/a.nc") (VInt 100) (VDict [])).
  - reflexivity.
  - reflexivity.
  - reflexivity.
  - reflexivity.
Defined.

(** X18: for netcdf3, once the source check has passed and
    [inline_threshold], [netcdf3_max_chunk_size] and [storage_options] can be
    subscripted, exactly one scanner is called, the NetCDF3 one, with the
    source and the first items of the three options; what it answers is the
    result as it is, [grib_filters] is not looked at, and a string URL is
    accepted as source. *)
Theorem open_with_kerchunk_netcdf3_dispatch env src inline_threshold
    netcdf3_max_chunk_size storage_options grib_filters w src' w1 it mc so :
  normalize env src netcdf3 w = (Ok src', w1) ->
  subscript0 inline_threshold = Ok it ->
  subscript0 netcdf3_max_chunk_size = Ok mc ->
  subscript0 storage_options = Ok so ->
  let r := open_with_kerchunk env src netcdf3 inline_threshold
             netcdf3_max_chunk_size storage_options grib_filters w in
  r.1 = NetCDF3ToZarr_translate env (calls w1) src' it mc so
  /\ calls r.2 = calls w1 ++ [Call_NetCDF3ToZarr src' it mc so].
Proof.
  intros Hn Hit Hmc Hso r. subst r. unfold open_with_kerchunk.
  rewrite bind_run, Hn. simpl.
  unfold getitem0, lift. rewrite !bind_run, Hit. rewrite !bind_run, Hmc.
  rewrite !bind_run, Hso. done.
Qed.

Lemma open_with_kerchunk_netcdf3_dispatch_witness :
  let src := VStr "s3://bucket/a.nc" in
  let r := open_with_kerchunk (double []) src netcdf3 (boxed (VInt 100))
             (boxed (VInt 100000000)) (boxed VNone) VNone world0 in
  r.1 = NetCDF3ToZarr_translate (double []) (calls world0) src (VInt 100)
          (VInt 100000000) VNone
  /\ calls r.2
     = calls world0 ++ [Call_NetCDF3ToZarr src (VInt 100) (VInt 100000000) VNone].
Proof.
  apply (open_with_kerchunk_netcdf3_dispatch (double [])
           (VStr "s3://bucket/a.nc") (boxed (VInt 100))
           (boxed (VInt 100000000)) (boxed VNone) VNone world0
           (VStr "s3://bucket/a.nc") world0 (VInt 100) (VInt 100000000) VNone).
  - reflexivity.
  - reflexivity.
  - reflexivity.
  - reflexivity.
Defined.

(** X19: when the source is an [OpenFile] handle whose [open] raises, the
    error is raised as it is, for every file type and all options; the one
    call made is that [open], and no scanner is called. *)
Theorem open_with_kerchunk_open_error env o file_type it mc so gf w e :
  handle_open env (calls w) o = Err e ->
  let r := open_with_kerchunk env (VOpenFile o) file_type it mc so gf w in
  r.1 = Err e /\ calls r.2 = calls w ++ [Call_handle_open o].
Proof.
  intros Ho r. subst r. unfold open_with_kerchunk.
  rewrite bind_run, normalize_run, Ho. done.
Qed.

Lemma open_with_kerchunk_open_error_witness :
  let o := OpenFile "s3://bucket/a.grib2" in
  let r := open_with_kerchunk (failing (ExternalError "access denied"))
             (VOpenFile o) grib (boxed (VInt 100)) VNone (boxed VNone)
             (boxed VNone) world0 in
  r.1 = Err (ExternalError "access denied")
  /\ calls r.2 = calls world0 ++ [Call_handle_open o].
Proof.
  apply (open_with_kerchunk_open_error (failing (ExternalError "access denied"))
           (OpenFile "s3://bucket/a.grib2") grib (boxed (VInt 100)) VNone
           (boxed VNone) (boxed VNone) world0 (ExternalError "access denied")).
  reflexivity.
Defined.

(** X20: when [storage_options] is left at its default [None], every call
    for netcdf4, netcdf3 or grib fails, whatever the source and the other
    options, and no scanner is called. *)
Theorem open_with_kerchunk_needs_storage_options env src file_type it mc gf w :
  file_type ∈ [netcdf4; netcdf3; grib] ->
  let r := open_with_kerchunk env src file_type it mc default_storage_options
             gf w in
  (exists e, r.1 = Err e)
  /\ exists t, calls r.2 = calls w ++ t /\ no_scanner_call t = true.
Proof.
  intros Hft r.
  destruct (normalize_calls env src file_type w) as (t & Ht & Hns).
  assert ((exists e, r.1 = Err e)
          /\ r.2 = (normalize env src file_type w).2) as [He Hw].
  { subst r. unfold open_with_kerchunk. rewrite bind_run.
    destruct (normalize env src file_type w) as [[src'|e] w1]; [| by eauto].
    rewrite !elem_of_cons, elem_of_nil in Hft.
    unfold getitem0, lift, default_storage_options.
    destruct Hft as [->|[->|[->|[]]]]; simpl.
    - rewrite bind_run.
      destruct (getattr_path src' w1) as [[p|e] w2] eqn:Hp.
      + assert (w2 = w1) as ->.
        { unfold getattr_path in Hp. destruct src'; try discriminate;
            try (by injection Hp as _ <-).
          destruct (fo_path f); [by injection Hp as _ <- | discriminate]. }
        rewrite bind_run. destruct (subscript0 it); simpl; eauto.
      + assert (w2 = w1) as ->.
        { unfold getattr_path in Hp. destruct src'; try (by injection Hp as _ <-).
          destruct (fo_path f); [discriminate | by injection Hp as _ <-]. }
        eauto.
    - rewrite bind_run. destruct (subscript0 it); simpl; [| by eauto].
      rewrite bind_run. destruct (subscript0 mc); simpl; eauto.
    - rewrite bind_run. destruct (subscript0 it); simpl; [| by eauto].
      rewrite bind_run. destruct (subscript0 gf); simpl; eauto. }
  split; [done |]. exists t. by rewrite Hw.
Qed.

Lemma open_with_kerchunk_needs_storage_options_witness :
  let r := open_with_kerchunk (double []) (VStr "s3://bucket/a.nc") netcdf3
             (boxed (VInt 100)) (boxed (VInt 100000000))
             default_storage_options VNone world0 in
  (exists e, r.1 = Err e)
  /\ exists t, calls r.2 = calls world0 ++ t /\ no_scanner_call t = true.
Proof.
  apply (open_with_kerchunk_needs_storage_options (double [])
           (VStr "s3://bucket/a.nc") netcdf3 (boxed (VInt 100))
           (boxed (VInt 100000000)) VNone world0).
  by apply (bool_decide_unpack _); vm_compute.
Defined.

(** ** [open_with_kerchunk], the edges of the GRIB branch *)

Lemma merge_refs_missing others d0 w :
  Forall (fun m => dict_get m "refs" = None \/ exists r, refs_of m = Some r)
         others ->
  Exists (fun m => dict_get m "refs" = None) others ->
  foldM (fun acc other_ref =>
           getattr_update acc;;
           o ← dict_getitem other_ref "refs"; py_update acc o)
        others (VDict d0) w
  = (Err (KeyError "'refs'"), w).
Proof.
  intros Hall. revert d0. induction Hall as [|m others Hm _ IH]; intros d0 Hex.
  - inversion Hex.
  - simpl. rewrite bind_run. unfold dict_getitem. rewrite bind_run.
    destruct Hm as [Hnone|[r Hr]].
    + by rewrite Hnone.
    + unfold refs_of in Hr.
      destruct (dict_get m "refs") as [[]|] eqn:Hget; try discriminate.
      simpl. apply IH. inversion Hex as [? ? Hbad|]; subst; [congruence | done].
Qed.

Section GribEdges.

(** A call on a GRIB source for which the source check passes and the three
    options can be subscripted, so that the scanner is called. *)
Variables (env : collaborators) (w w1 : world).
Variables (src src' inline_threshold mc storage_options grib_filters : pyval).
Variables (it flt so : pyval).

Hypothesis Hsource : normalize env src grib w = (Ok src', w1).
Hypothesis Hinline : subscript0 inline_threshold = Ok it.
Hypothesis Hfilter : subscript0 grib_filters = Ok flt.
Hypothesis Hstorage : subscript0 storage_options = Ok so.

Lemma open_with_kerchunk_grib_scan_run :
  open_with_kerchunk env src grib inline_threshold mc storage_options
    grib_filters w
  = (msgs ← lift (scan_grib env (calls w1) src' it flt so);
         consolidate src' msgs)
          (World (heap w1) (warnings w1)
                 (calls w1 ++ [Call_scan_grib src' it flt so])).
Proof.
  unfold open_with_kerchunk.
  rewrite bind_run, Hsource. simpl. unfold getitem0, lift.
  rewrite !bind_run, Hinline. rewrite !bind_run, Hfilter.
  rewrite !bind_run, Hstorage. unfold invoke. rewrite !bind_run.
  by destruct (scan_grib env (calls w1) src' it flt so).
Qed.

(** X21: an error raised by the GRIB scanner is raised as it is: the result
    is that error, the scanner having been called once. *)
Theorem grib_scan_error_propagates e :
  scan_grib env (calls w1) src' it flt so = Err e ->
  (open_with_kerchunk env src grib inline_threshold mc storage_options
     grib_filters w).1 = Err e
  /\ calls (open_with_kerchunk env src grib inline_threshold mc
              storage_options grib_filters w).2
     = calls w1 ++ [Call_scan_grib src' it flt so].
Proof.
  intros Hscan. rewrite open_with_kerchunk_grib_scan_run.
  rewrite bind_run. unfold lift. by rewrite Hscan.
Qed.

(** X22: when the GRIB scan yields no message at all, the call raises
    [IndexError]: there is no first mapping to take as the base. *)
Theorem grib_no_message_index_error :
  scan_grib env (calls w1) src' it flt so = Ok [] ->
  (open_with_kerchunk env src grib inline_threshold mc storage_options
     grib_filters w).1 = Err (IndexError "list index out of range").
Proof.
  intros Hscan. rewrite open_with_kerchunk_grib_scan_run.
  rewrite bind_run. unfold lift. by rewrite Hscan.
Qed.

(** X23: a scan that yields a single message skips the consolidation: the
    mapping is returned with its [templates] entry set, whatever else it
    holds, even when it has no [refs]; every other entry is kept, and when the
    mapping had no [templates] the new entry comes last. *)
Theorem grib_single_message m :
  scan_grib env (calls w1) src' it flt so = Ok [m] ->
  (open_with_kerchunk env src grib inline_threshold mc storage_options
     grib_filters w).1 = Ok (dict_set m "templates" (VDict [("u", src')]))
  /\ (forall k, k <> "templates" ->
        dict_get (dict_set m "templates" (VDict [("u", src')])) k = dict_get m k)
  /\ (dict_get m "templates" = None ->
        (open_with_kerchunk env src grib inline_threshold mc storage_options
           grib_filters w).1 = Ok (m ++ [("templates", VDict [("u", src')])])).
Proof.
  intros Hscan. rewrite open_with_kerchunk_grib_scan_run.
  rewrite bind_run. unfold lift. rewrite Hscan. simpl.
  split; [done |]. split.
  - intros k Hk. by apply dict_get_set_ne.
  - intros Hnone. by rewrite dict_set_absent.
Qed.

(** X24: when the scan yields two or more messages, every [refs] entry that
    is present is a dict, and one of the messages has no [refs] entry, the
    call raises [KeyError] on [refs] and returns no mapping. *)
Theorem grib_missing_refs_key_error msgs :
  scan_grib env (calls w1) src' it flt so = Ok msgs ->
  2 <= length msgs ->
  Forall (fun m => dict_get m "refs" = None \/ exists r, refs_of m = Some r)
         msgs ->
  Exists (fun m => dict_get m "refs" = None) msgs ->
  (open_with_kerchunk env src grib inline_threshold mc storage_options
     grib_filters w).1 = Err (KeyError "'refs'").
Proof.
  intros Hscan Hlen Hall Hex. rewrite open_with_kerchunk_grib_scan_run.
  rewrite bind_run. unfold lift. rewrite Hscan.
  destruct msgs as [|m0 others]; [simpl in Hlen; lia |].
  unfold consolidate.
  rewrite decide_False by (destruct others; simpl in *; lia).
  simpl. rewrite bind_run. simpl. unfold dict_getitem. rewrite bind_run.
  rewrite dict_get_set_ne by done.
  inversion Hall as [|? ? Hm0 Hothers]; subst.
  destruct Hm0 as [Hnone|[r0 Hr0]].
  - by rewrite Hnone.
  - unfold refs_of in Hr0.
    destruct (dict_get m0 "refs") as [[]|] eqn:Hget; try discriminate.
    simpl. rewrite bind_run. simpl. rewrite bind_run.
    rewrite merge_refs_missing; [done | done |].
    inversion Hex as [? ? Hbad|]; subst; [congruence | done].
Qed.

End GribEdges.

Lemma grib_scan_error_propagates_witness :
  let env := failing (ExternalError "truncated message") in
  let r := open_with_kerchunk env (VStr "s3://bucket/a.grib2") grib
             (boxed (VInt 100)) VNone (boxed VNone) (boxed VNone) world0 in
  r.1 = Err (ExternalError "truncated message")
  /\ calls r.2
     = calls world0
       ++ [Call_scan_grib (VStr "s3://bucket/a.grib2") (VInt 100) VNone VNone].
Proof.
  apply (grib_scan_error_propagates (failing (ExternalError "truncated message"))
           world0 world0 (VStr "s3://bucket/a.grib2") (VStr "s3://bucket/a.grib2")
           (boxed (VInt 100)) VNone (boxed VNone) (boxed VNone)
           (VInt 100) VNone VNone).
  - reflexivity.
  - reflexivity.
  - reflexivity.
  - reflexivity.
  - reflexivity.
Defined.

Lemma grib_no_message_index_error_witness :
  (open_with_kerchunk (double []) (VStr "s3://bucket/a.grib2") grib
     (boxed (VInt 100)) VNone (boxed VNone) (boxed VNone) world0).1
  = Err (IndexError "list index out of range").
Proof.
  apply (grib_no_message_index_error (double []) world0 world0
           (VStr "s3://bucket/a.grib2") (VStr "s3://bucket/a.grib2")
           (boxed (VInt 100)) VNone (boxed VNone) (boxed VNone)
           (VInt 100) VNone VNone).
  - reflexivity.
  - reflexivity.
  - reflexivity.
  - reflexivity.
  - reflexivity.
Defined.

Lemma grib_single_message_witness :
  let m := [("version", VInt 1)] in
  let src := VStr "s3://bucket/a.grib2" in
  let r := open_with_kerchunk (double [m]) src grib
             (boxed (VInt 100)) VNone (boxed VNone) (boxed VNone) world0 in
  r.1 = Ok (dict_set m "templates" (VDict [("u", src)]))
  /\ (forall k, k <> "templates" ->
        dict_get (dict_set m "templates" (VDict [("u", src)])) k = dict_get m k)
  /\ (dict_get m "templates" = None ->
        r.1 = Ok (m ++ [("templates", VDict [("u", src)])])).
Proof.
  apply (grib_single_message (double [[("version", VInt 1)]]) world0 world0
           (VStr "s3://bucket/a.grib2") (VStr "s3://bucket/a.grib2")
           (boxed (VInt 100)) VNone (boxed VNone) (boxed VNone)
           (VInt 100) VNone VNone).
  - reflexivity.
  - reflexivity.
  - reflexivity.
  - reflexivity.
  - reflexivity.
Defined.

Lemma grib_missing_refs_key_error_witness :
  let msgs := [message refs_t2m; [("version", VInt 1)]; message refs_v10] in
  (open_with_kerchunk (double msgs) (VStr "s3://bucket/a.grib2") grib
     (boxed (VInt 100)) VNone (boxed VNone) (boxed VNone) world0).1
  = Err (KeyError "'refs'").
Proof.
  apply (grib_missing_refs_key_error
           (double [message refs_t2m; [("version", VInt 1)]; message refs_v10])
           world0 world0
           (VStr "s3://bucket/a.grib2") (VStr "s3://bucket/a.grib2")
           (boxed (VInt 100)) VNone (boxed VNone) (boxed VNone)
           (VInt 100) VNone VNone eq_refl eq_refl eq_refl eq_refl
           [message refs_t2m; [("version", VInt 1)]; message refs_v10]).
  - reflexivity.
  - simpl. lia.
  - constructor; [right; by eexists |]. constructor; [by left |].
    constructor; [right; by eexists |]. constructor.
  - apply Exists_cons_tl, Exists_cons_hd. reflexivity.
Defined.

(** ** [open_with_xarray], the copy guard for zarr *)

(** X25: a source declared [zarr] is never copied to a local file: with
    [copy_to_local] set and options that resolve (no explicit engine, or the
    engine [zarr]), the call raises the cannot-be-copied [ValueError] for
    every source, a string URL included since the file type is tested first,
    and no collaborator has been called. *)
Theorem open_with_xarray_zarr_copy_refused env src load kwargs w :
  (forall l, kwargs = Some l ->
     exists d, heap w !! l = Some d
               /\ (dict_get d "engine" = None
                   \/ dict_get d "engine" = Some (VStr "zarr"))) ->
  let r := open_with_xarray env src zarr load true kwargs w in
  r.1 = Err (ValueError "File type FileType.zarr can't be copied to a local file.")
  /\ calls r.2 = calls w.
Proof.
  intros Hk r. subst r. destruct w as [h ws cs]. simpl in Hk.
  destruct (or_new_dict_run kwargs h ws cs)
    as (l2 & h2 & d2 & Hrun & Hl2 & _ & Hsame & Hnone).
  { intros l Hl. destruct (Hk l Hl) as (d & Hd & _). eauto. }
  assert (dict_get d2 "engine" = None
          \/ dict_get d2 "engine" = Some (VStr "zarr")) as He.
  { destruct kwargs as [l|].
    - destruct (Hk l eq_refl) as (d & Hd & He).
      specialize (Hsame l eq_refl). congruence.
    - rewrite Hnone by done. by left. }
  rewrite open_with_xarray_assoc, bind_run, Hrun.
  rewrite (_set_engine_run _ _ _ _ _ _ Hl2). simpl.
  destruct He as [-> | ->]; simpl; done.
Qed.

Lemma open_with_xarray_zarr_copy_refused_witness :
  let d := [("engine", VStr "zarr")] in
  let r := open_with_xarray (double []) (VStr "s3://bucket/store.zarr") zarr
             false true (Some 1%positive) (world1 d) in
  r.1 = Err (ValueError "File type FileType.zarr can't be copied to a local file.")
  /\ calls r.2 = calls (world1 d).
Proof.
  apply (open_with_xarray_zarr_copy_refused (double [])
           (VStr "s3://bucket/store.zarr") false (Some 1%positive)
           (world1 [("engine", VStr "zarr")])).
  intros l [= <-]. exists [("engine", VStr "zarr")].
  split; [reflexivity | right; reflexivity].
Defined.
